(** * The evaluation pipeline of scripts/evaluate.py

    A shallow embedding of [send_question_to_target], [truncate_for_log],
    [load_jsonl], [run_evaluation], [process_config] and
    [run_evaluate_from_config], and the properties of them that the
    specification of the repository states.

    Python values decoded from JSON are the inductive type [pyval]; a
    [dict] is the list of its items in insertion order (keys are unique in
    a Python dict, so reading [obj[key]] is reading the first item with
    that key).  A [str] is a [string], one [ascii] per character.
    Effects are threaded through a state-and-exception monad over [world]
    (the file system and the log of what the process did to the outside);
    a file is kept as the text it holds, and reading it in text mode gives
    that text with its line ends translated, as Python does;
    the libraries the script calls ([requests], [json], [time], the grading
    call [evaluate], [service_setup]) are the fields of an [Env]. *)

From Stdlib Require Import ZArith List String Ascii Bool Lia.
From Stdlib Require Import DecimalString SpecFloat.
Import ListNotations.

Local Open Scope string_scope.
Local Open Scope Z_scope.

(** ** Python values and exceptions *)

#[local] Set Warnings "-register-all".

Inductive pyval : Type :=
| PNone
| PBool (b : bool)
| PInt (z : Z)
| PFloat (f : spec_float)
| PStr (s : string)
| PList (l : list pyval)
| PDict (d : list (string * pyval)).

Inductive exn : Type :=
| KeyError (key : string)
| IndexError
| TypeError
| ValueError (msg : string)
| OverflowError
| ZeroDivisionError
| FileNotFoundError (path : string)
| LibraryError (cls msg : string).

Inductive outcome (A : Type) : Type :=
| Return (a : A)
| Raise (e : exn).
Arguments Return {A} a.
Arguments Raise {A} e.

Definition obind {A B} (x : outcome A) (k : A -> outcome B) : outcome B :=
  match x with
  | Return a => k a
  | Raise e => Raise e
  end.

(** ** The outside world *)

Inductive event : Type :=
| EvOpenRead (path : string)
| EvOpenWrite (path : string)
| EvWrite (path : string) (text : string)
| EvPost (url : pyval) (body : pyval)
| EvTime
| EvEvaluate (data : list pyval) (output_path : string).

(** The file system gives, for a path as it is handed to [open], the text
    of the file there. Paths built with [pathlib] are kept in the form that
    [str] gives them, and two different paths are two files: there are no
    links, and no path reaches a file through [..]. *)
Record world : Type := World {
  fs : string -> option string;
  trace : list event
}.

Definition M (A : Type) : Type := world -> outcome A * world.

Definition ret {A} (a : A) : M A := fun w => (Return a, w).
Definition raise {A} (e : exn) : M A := fun w => (Raise e, w).
Definition bind {A B} (m : M A) (k : A -> M B) : M B :=
  fun w =>
    match m w with
    | (Return a, w') => k a w'
    | (Raise e, w') => (Raise e, w')
    end.
(** [try: m except Exception as e: h e] *)
Definition try_except {A} (m : M A) (h : exn -> M A) : M A :=
  fun w =>
    match m w with
    | (Return a, w') => (Return a, w')
    | (Raise e, w') => h e w'
    end.
Definition lift {A} (x : outcome A) : M A := fun w => (x, w).
Definition log (ev : event) : M unit :=
  fun w => (Return tt, World (fs w) (trace w ++ [ev])).

Declare Scope py_scope.
Delimit Scope py_scope with py.
Notation "x <- m ;; k" := (bind m (fun x => k))
  (at level 61, m at next level, right associativity) : py_scope.
Notation "m ;;; k" := (bind m (fun _ => k))
  (at level 61, right associativity) : py_scope.
Local Open Scope py_scope.

Definition set_file (path text : string) (f : string -> option string)
  : string -> option string :=
  fun p => if String.eqb p path then Some text else f p.

(** [open(path, encoding="utf-8")]: [FileNotFoundError] when there is no
    such file. *)
Definition file_open (path : string) : M unit :=
  log (EvOpenRead path) ;;;
  fun w => match fs w path with
           | Some _ => (Return tt, w)
           | None => (Raise (FileNotFoundError path), w)
           end.

Definition line_feed : ascii := "010"%char.
Definition carriage_return : ascii := "013"%char.

(** What text mode makes of the text of a file (universal newlines): a
    carriage return followed by a line feed, and a carriage return alone,
    are read as a line feed. *)
Fixpoint universal_newlines (s : string) : string :=
  match s with
  | "" => ""
  | String c rest =>
      if Ascii.eqb c carriage_return then
        match rest with
        | String c' rest' =>
            if Ascii.eqb c' line_feed then String line_feed (universal_newlines rest')
            else String line_feed (universal_newlines rest)
        | "" => String line_feed ""
        end
      else String c (universal_newlines rest)
  end.

(** The text of the file [path] as a read in text mode gives it. *)
Definition read_text (w : world) (path : string) : option string :=
  match fs w path with
  | Some text => Some (universal_newlines text)
  | None => None
  end.

(** [f.read()] on a file opened for reading with [encoding="utf-8"]: its
    text, line ends translated. *)
Definition file_read (path : string) : M string :=
  fun w => match read_text w path with
           | Some text => (Return text, w)
           | None => (Return "", w)
           end.

Definition open_read (path : string) : M string :=
  file_open path ;;; file_read path.

(** [open(path, "w", encoding="utf-8")] creates or empties the file;
    [f.write(text)] adds [text] to it (a line feed is written as it is, the
    line separator of POSIX systems). *)
Definition open_write (path : string) : M unit :=
  fun w => (Return tt, World (set_file path "" (fs w)) (trace w ++ [EvOpenWrite path])).

Definition file_write (path text : string) : M unit :=
  fun w =>
    let old := match fs w path with Some t => t | None => "" end in
    (Return tt, World (set_file path (old ++ text) (fs w)) (trace w ++ [EvWrite path text])).

(** ** Built-in operations on values *)

Fixpoint dict_get (d : list (string * pyval)) (key : string) : option pyval :=
  match d with
  | [] => None
  | (k, v) :: rest => if String.eqb k key then Some v else dict_get rest key
  end.

(** [v[key]] for a string literal [key]. *)
Definition getitem (v : pyval) (key : string) : outcome pyval :=
  match v with
  | PDict d => match dict_get d key with
               | Some x => Return x
               | None => Raise (KeyError key)
               end
  | _ => Raise TypeError
  end.

(** [v[0]]. A decoded JSON object has string keys only, so [0] is never one
    of them. *)
Definition getitem0 (v : pyval) : outcome pyval :=
  match v with
  | PList (x :: _) => Return x
  | PList [] => Raise IndexError
  | PStr (String c _) => Return (PStr (String c ""))
  | PStr "" => Raise IndexError
  | PDict _ => Raise (KeyError "0")
  | _ => Raise TypeError
  end.

Fixpoint join (sep : string) (l : list string) : string :=
  match l with
  | [] => ""
  | [s] => s
  | s :: rest => s ++ sep ++ join sep rest
  end.

Fixpoint chars (s : string) : list string :=
  match s with
  | "" => []
  | String c rest => String c "" :: chars rest
  end.

Fixpoint all_str (l : list pyval) : outcome (list string) :=
  match l with
  | [] => Return []
  | PStr s :: rest => obind (all_str rest) (fun r => Return (s :: r))
  | _ :: _ => Raise TypeError
  end.

(** [sep.join(v)]: [v] is iterated; every item has to be a [str]. Iterating
    a [str] gives its characters, iterating a [dict] its keys. *)
Definition str_join (sep : string) (v : pyval) : outcome string :=
  match v with
  | PList l => obind (all_str l) (fun ss => Return (join sep ss))
  | PStr s => Return (join sep (chars s))
  | PDict d => Return (join sep (map fst d))
  | _ => Raise TypeError
  end.

Definition nl : string := String "010"%char "".
Definition blank_line : string := nl ++ nl.

(** ** The libraries the script calls *)

Record response : Type := Response { json : outcome pyval }.

Record eval_results : Type := EvalResults {
  metrics_summary : pyval;
  artifacts : list (string * pyval)
}.

Record target_response : Type := TargetResponse {
  question : string;
  answer : pyval;
  context : string
}.

Record Env : Type := {
  (** [requests.post(url, headers=headers, json=body)] *)
  requests_post : world -> pyval -> pyval -> outcome response;
  (** [int(time.time())] *)
  time_time : world -> Z;
  json_loads : string -> outcome pyval;
  (** [json.dumps(v, indent=4)] *)
  json_dumps : pyval -> outcome string;
  (** [str(e)] for the exceptions the interpreter and the libraries raise *)
  exn_text : exn -> string;
  (** [int(s)] on a [str] *)
  int_of_str : string -> outcome Z;
  (** [str(v)], as an f-string formats a value *)
  format_value : pyval -> string;
  (** [azure.ai.generative.evaluate.evaluate]: the grading call, given the
      wrapped target, the data, the model configuration and the output path *)
  evaluate : (string -> M target_response) -> list pyval -> pyval -> string -> M eval_results;
  (** [service_setup.get_openai_config()] *)
  get_openai_config : M pyval
}.

Definition str_exn (E : Env) (e : exn) : string :=
  match e with
  | ValueError msg => msg
  | _ => exn_text E e
  end.

(** ** send_question_to_target *)

Definition request_body (question : string) (parameters : pyval) : pyval :=
  PDict [("messages", PList [PDict [("content", PStr question); ("role", PStr "user")]]);
         ("stream", PBool false);
         ("context", parameters)].

(** Lines 27-29: the answer and the joined data points of a response. *)
Definition extract (response_dict : pyval) : outcome (pyval * string) :=
  obind (getitem response_dict "choices") (fun choices =>
  obind (getitem0 choices) (fun choice =>
  obind (getitem choice "message") (fun message =>
  obind (getitem message "content") (fun answer =>
  obind (getitem response_dict "choices") (fun choices' =>
  obind (getitem0 choices') (fun choice' =>
  obind (getitem choice' "context") (fun ctx =>
  obind (getitem ctx "data_points") (fun dp =>
  obind (getitem dp "text") (fun data_points =>
  obind (str_join blank_line data_points) (fun context =>
  Return (answer, context))))))))))).

Definition schema_message (E : Env) (response_dict : pyval) : string :=
  "Response does not adhere to the expected schema. "
  ++ "Either adjust the app response or adjust send_question_to_target() in evaluate.py "
  ++ "to match the actual schema." ++ nl ++ "Response: " ++ format_value E response_dict.

Definition send_question_to_target (E : Env)
    (question : string) (target_url parameters : pyval) (raise_error : bool)
  : M target_response :=
  try_except
    (log (EvPost target_url (request_body question parameters)) ;;;
     r <- (fun w => (requests_post E w target_url (request_body question parameters), w)) ;;
     response_dict <- lift (json r) ;;
     match extract response_dict with
     | Return (answer, context) => ret (TargetResponse question answer context)
     | Raise _ => raise (ValueError (schema_message E response_dict))
     end)
    (fun e =>
       if raise_error then raise e
       else ret (TargetResponse question (PStr (str_exn E e)) (str_exn E e))).

(** ** truncate_for_log, load_jsonl *)

Definition py_len (v : pyval) : outcome Z :=
  match v with
  | PStr s => Return (Z.of_nat (String.length s))
  | PList l => Return (Z.of_nat (List.length l))
  | PDict d => Return (Z.of_nat (List.length d))
  | _ => Raise TypeError
  end.

(** [s if len(s) < max_length else s[:max_length] + "..."] with
    [max_length = 30]. Only a [str] can be cut and extended by ["..."]; the
    caller catches whatever is raised here. *)
Definition truncate_for_log (s : pyval) : outcome pyval :=
  obind (py_len s) (fun n =>
  if n <? 30 then Return s
  else match s with
       | PStr t => Return (PStr (substring 0 30 t ++ "..."))
       | _ => Raise TypeError
       end).

Definition newline : ascii := "010"%char.

(** [f.readlines()]: the lines of the text, each with its line end. *)
Fixpoint readlines_from (cur : string) (s : string) : list string :=
  match s with
  | "" => match cur with "" => [] | _ => [cur] end
  | String c rest =>
      if Ascii.eqb c newline then (cur ++ String c "") :: readlines_from "" rest
      else readlines_from (cur ++ String c "") rest
  end.
Definition readlines (s : string) : list string := readlines_from "" s.

Fixpoint map_outcome {A B} (f : A -> outcome B) (l : list A) : outcome (list B) :=
  match l with
  | [] => Return []
  | x :: rest => obind (f x) (fun y => obind (map_outcome f rest) (fun ys => Return (y :: ys)))
  end.

Definition load_jsonl (E : Env) (path : string) : M (list pyval) :=
  text <- open_read path ;;
  lift (map_outcome (json_loads E) (readlines text)).

(** [l[:n]] *)
Definition slice_to {A} (l : list A) (n : Z) : list A :=
  if 0 <=? n then firstn (Z.to_nat n) l
  else firstn (Z.to_nat (Z.of_nat (List.length l) + n)) l.

(** Lines 68-70: [if num_questions: testdata = testdata[:num_questions]];
    [None] and [0] are the false values of the cap. *)
Definition limit_questions (testdata : list pyval) (num_questions : option Z) : list pyval :=
  match num_questions with
  | None => testdata
  | Some n => if n =? 0 then testdata else slice_to testdata n
  end.

(** ** Numbers: binary64 division and rounding to two decimals *)

Definition prec : Z := 53.
Definition emax : Z := 1024.

Definition int_to_float (z : Z) : spec_float :=
  match z with
  | Z0 => S754_zero false
  | Zpos p => S754_finite false p 0
  | Zneg p => S754_finite true p 0
  end.

(** [a / b] on two [int]s, [b] not zero: the binary64 nearest to the
    quotient, [quotient64 a b]. (CPython
    raises [OverflowError] when the quotient is beyond the binary64 range;
    the operands here are counts and lengths, far below it.) *)
Definition quotient64 (a b : Z) : spec_float :=
  SFdiv prec emax (int_to_float a) (int_to_float b).

Definition int_truediv (a b : Z) : outcome spec_float :=
  if b =? 0 then Raise ZeroDivisionError
  else Return (quotient64 a b).

(** The integer nearest to [n / d] for [0 < d], ties to the even one. *)
Definition round_half_even (n d : Z) : Z :=
  let q := n / d in
  match (2 * (n mod d)) ?= d with
  | Lt => q
  | Gt => q + 1
  | Eq => if Z.even q then q else q + 1
  end.

(** The binary64 nearest to [k / 100], with the sign [s]. *)
Definition hundredths (s : bool) (k : Z) : spec_float :=
  match k with
  | Zpos p => SFdiv prec emax (S754_finite s p 0) (S754_finite false 100 0)
  | _ => S754_zero s
  end.

(** [round(x, 2)] on a [float]: the exact value of [x] is rounded to the
    nearest multiple of 1/100, ties to even, and the result is the binary64
    nearest to that decimal. Infinities and NaN round to themselves. *)
Definition float_round2 (x : spec_float) : spec_float :=
  match x with
  | S754_finite s m e =>
      hundredths s (if 0 <=? e then 100 * Zpos m * 2 ^ e
                    else round_half_even (100 * Zpos m) (2 ^ (- e)))
  | _ => x
  end.

Definition py_round2 (v : pyval) : outcome pyval :=
  match v with
  | PFloat f => Return (PFloat (float_round2 f))
  | PInt z => Return (PInt z)
  | PBool b => Return (PInt (if b then 1 else 0))
  | _ => Raise TypeError
  end.

(** The exact value of a finite binary64 is [float_num x / float_den x]. *)
Definition float_num (s : bool) (m : positive) (e : Z) : Z :=
  (if s then -1 else 1) * Zpos m * 2 ^ (Z.max e 0).
Definition float_den (e : Z) : Z := 2 ^ (Z.max (- e) 0).

(** [int(rating)]: a [float] is truncated towards zero. *)
Definition py_int (E : Env) (v : pyval) : outcome Z :=
  match v with
  | PInt z => Return z
  | PBool b => Return (if b then 1 else 0)
  | PFloat (S754_zero _) => Return 0
  | PFloat (S754_finite s m e) => Return (Z.quot (float_num s m e) (float_den e))
  | PFloat (S754_infinity _) => Raise OverflowError
  | PFloat S754_nan => Raise (ValueError "cannot convert float NaN to integer")
  | PStr s => int_of_str E s
  | _ => Raise TypeError
  end.

(** ** The metric aggregation (lines 116-150) *)

Definition gpt_metrics : list string :=
  ["gpt_coherence"; "gpt_relevance"; "gpt_groundedness"].

Record metric : Type := Metric {
  mean_rating : pyval;
  pass_count : Z;
  pass_rate : pyval
}.

Record summary : Type := Summary {
  graded : list (string * metric);
  length_total : Z;
  length_mean : spec_float;
  length_max : Z;
  length_min : Z;
  citation_total : Z;
  citation_rate : spec_float
}.

(** The running totals of the loop over the rated records. *)
Record totals : Type := Totals {
  metrics : list (string * metric);
  total_length : Z;
  max_length : Z;
  min_length : Z;
  total_with_citation : Z
}.

(** [re.search(r"\[[^\]]+\]", s)]: an opening bracket, at least one
    character other than the closing bracket, a closing bracket. *)
Fixpoint has_closing (s : string) : bool :=
  match s with
  | "" => false
  | String c rest => if Ascii.eqb c "]" then true else has_closing rest
  end.

Fixpoint has_citation (s : string) : bool :=
  match s with
  | "" => false
  | String c rest =>
      (if Ascii.eqb c "[" then
         match rest with
         | "" => false
         | String c' rest' => if Ascii.eqb c' "]" then false else has_closing rest'
         end
       else false)
      || has_citation rest
  end.

Definition re_search_citation (v : pyval) : outcome bool :=
  match v with
  | PStr s => Return (has_citation s)
  | _ => Raise TypeError
  end.

(** Lines 116-123: the entry of every graded metric, with its mean rating
    taken from the summary of the grading call. *)
Fixpoint init_metrics (metrics_summary : pyval) (names : list string)
  : outcome (list (string * metric)) :=
  match names with
  | [] => Return []
  | metric_name :: rest =>
      obind (getitem metrics_summary ("mean_" ++ metric_name)) (fun mean =>
      obind (py_round2 mean) (fun rounded =>
      obind (init_metrics metrics_summary rest) (fun ms =>
      Return ((metric_name, Metric rounded 0 (PInt 0)) :: ms))))
  end.

Definition passes_threshold (E : Env) (rating : pyval) : outcome bool :=
  obind (py_int E rating) (fun r => Return (4 <=? r)).

(** Lines 138-140 on the entry [m] of one metric. *)
Definition rate_metric (ind : Z) (passes : bool) (m : metric) : outcome metric :=
  let count := if passes then pass_count m + 1 else pass_count m in
  obind (int_truediv count (ind + 1)) (fun r =>
  Return (Metric (mean_rating m) count (PFloat (float_round2 r)))).

(** [metrics[metric_name] = f(metrics[metric_name])] *)
Fixpoint update_metric (metric_name : string) (f : metric -> outcome metric)
    (ms : list (string * metric)) : outcome (list (string * metric)) :=
  match ms with
  | [] => Raise (KeyError metric_name)
  | (k, m) :: rest =>
      if String.eqb k metric_name then obind (f m) (fun m' => Return ((k, m') :: rest))
      else obind (update_metric metric_name f rest) (fun rest' => Return ((k, m) :: rest'))
  end.

(** Lines 137-140: the loop over the graded metrics for one record. *)
Fixpoint rate_metrics (E : Env) (ind : Z) (question_with_rating : pyval)
    (names : list string) (ms : list (string * metric))
  : outcome (list (string * metric)) :=
  match names with
  | [] => Return ms
  | metric_name :: rest =>
      obind (getitem question_with_rating metric_name) (fun rating =>
      obind (passes_threshold E rating) (fun passes =>
      obind (update_metric metric_name (rate_metric ind passes) ms) (fun ms' =>
      rate_metrics E ind question_with_rating rest ms')))
  end.

(** Lines 133-140: the body of the loop for the record of index [ind]. *)
Definition aggregate_step (E : Env) (ind : Z) (question_with_rating : pyval) (t : totals)
  : outcome totals :=
  obind (getitem question_with_rating "answer") (fun ans =>
  obind (py_len ans) (fun n =>
  obind (re_search_citation ans) (fun cited =>
  obind (rate_metrics E ind question_with_rating gpt_metrics (metrics t)) (fun ms =>
  Return (Totals ms
                 (total_length t + n)
                 (Z.max (max_length t) n)
                 (Z.min (min_length t) n)
                 (total_with_citation t + (if cited then 1 else 0))))))).

(** [for ind, question_with_rating in enumerate(questions_with_ratings)],
    from the index [ind] on. *)
Fixpoint aggregate_loop (E : Env) (ind : Z) (qs : list pyval) (t : totals) : outcome totals :=
  match qs with
  | [] => Return t
  | q :: rest => obind (aggregate_step E ind q t) (aggregate_loop E (ind + 1) rest)
  end.

(** Lines 124-150. *)
Definition aggregate (E : Env) (metrics0 : list (string * metric))
    (questions_with_ratings : list pyval) : outcome summary :=
  obind (aggregate_loop E 0 questions_with_ratings (Totals metrics0 0 0 9999999999 0)) (fun t =>
  obind (int_truediv (total_length t) (Z.of_nat (List.length questions_with_ratings))) (fun mean =>
  obind (int_truediv (total_with_citation t) (Z.of_nat (List.length questions_with_ratings))) (fun rate =>
  Return (Summary (metrics t) (total_length t) (float_round2 mean) (max_length t) (min_length t)
                  (total_with_citation t) (float_round2 rate))))).

Definition metric_to_py (m : metric) : pyval :=
  PDict [("mean_rating", mean_rating m); ("pass_count", PInt (pass_count m));
         ("pass_rate", pass_rate m)].

Definition summary_to_py (s : summary) : pyval :=
  PDict (map (fun km => (fst km, metric_to_py (snd km))) (graded s)
         ++ [("answer_length",
              PDict [("total", PInt (length_total s)); ("mean", PFloat (length_mean s));
                     ("max", PInt (length_max s)); ("min", PInt (length_min s))]);
             ("answer_has_citation",
              PDict [("total", PInt (citation_total s)); ("rate", PFloat (citation_rate s))])]).

(** ** run_evaluation *)

Definition slash : ascii := "/"%char.

(** The parts of a path between its slashes. *)
Fixpoint split_slash (cur : string) (s : string) : list string :=
  match s with
  | "" => [cur]
  | String c rest =>
      if Ascii.eqb c slash then cur :: split_slash "" rest
      else split_slash (cur ++ String c "") rest
  end.

(** The parts that [pathlib] keeps: not the empty ones, not the dots. *)
Definition path_parts (s : string) : list string :=
  filter (fun part => negb (String.eqb part "" || String.eqb part "."))
         (split_slash "" s).

(** The root of a POSIX path: one slash, or two when the path starts with
    exactly two. *)
Definition path_root (s : string) : string :=
  match s with
  | String "/" (String "/" (String "/" _)) => "/"
  | String "/" (String "/" _) => "//"
  | String "/" _ => "/"
  | _ => ""
  end.

(** [str] of the path with this root and these parts. *)
Definition path_str (root : string) (parts : list string) : string :=
  match root, parts with
  | "", [] => "."
  | _, _ => root ++ join "/" parts
  end.

(** [str(dir / name)], with [pathlib] on a POSIX system: an absolute [name]
    replaces [dir]; empty parts and dots are dropped, [..] is kept. A file
    is identified by the path so written. *)
Definition path_join (dir name : string) : string :=
  if prefix "/" name then path_str (path_root name) (path_parts name)
  else path_str (path_root dir) (path_parts dir ++ path_parts name).

(** [int(time.time())] *)
Definition clock (E : Env) : M Z :=
  fun w => (Return (time_time E w), World (fs w) (trace w ++ [EvTime])).

Definition probe_question : string := "What information is in your knowledge base?".

(** Lines 73-85: the test question and the log line about its answer;
    [True] when neither raised. *)
Definition health_check (E : Env) (target_url target_parameters : pyval) : M bool :=
  try_except
    (target_data <- send_question_to_target E probe_question target_url target_parameters true ;;
     _ <- lift (truncate_for_log (PStr (question target_data))) ;;
     _ <- lift (truncate_for_log (answer target_data)) ;;
     _ <- lift (truncate_for_log (PStr (context target_data))) ;;
     ret true)
    (fun _ => ret false).

Definition wrap_target (E : Env) (target_url target_parameters : pyval) (q : string)
  : M target_response :=
  send_question_to_target E q target_url target_parameters false.

(** [list(results.artifacts.keys())[0]] *)
Definition first_key (artifacts : list (string * pyval)) : outcome string :=
  match artifacts with
  | (k, _) :: _ => Return k
  | [] => Raise IndexError
  end.

Definition num_questions_to_py (num_questions : option Z) : pyval :=
  match num_questions with
  | Some n => PInt n
  | None => PNone
  end.

(** Lines 91-167: what follows a successful health check. *)
Definition grade_and_report (E : Env) (openai_config : pyval)
    (testdata_path results_dir : string) (target_url target_parameters : pyval)
    (num_questions : option Z) (testdata : list pyval) : M bool :=
  log (EvEvaluate testdata results_dir) ;;;
  results <- evaluate E (wrap_target E target_url target_parameters) testdata
                      openai_config results_dir ;;
  eval_results_filename <- lift (first_key (artifacts results)) ;;
  text <- open_read (path_join results_dir eval_results_filename) ;;
  questions_with_ratings <- lift (map_outcome (json_loads E) (readlines text)) ;;
  metrics0 <- lift (init_metrics (metrics_summary results) gpt_metrics) ;;
  s <- lift (aggregate E metrics0 questions_with_ratings) ;;
  open_write (path_join results_dir "summary.json") ;;;
  dumped <- lift (json_dumps E (summary_to_py s)) ;;
  file_write (path_join results_dir "summary.json") dumped ;;;
  open_write (path_join results_dir "evaluate_parameters.json") ;;;
  model <- lift (getitem openai_config "model") ;;
  now <- clock E ;;
  dumped' <- lift (json_dumps E
    (PDict [("evaluation_gpt_model", model);
            ("evaluation_timestamp", PInt now);
            ("testdata_path", PStr testdata_path);
            ("target_url", target_url);
            ("target_parameters", target_parameters);
            ("num_questions", num_questions_to_py num_questions)])) ;;
  file_write (path_join results_dir "evaluate_parameters.json") dumped' ;;;
  ret true.

Definition run_evaluation (E : Env) (openai_config : pyval)
    (testdata_path results_dir : string) (target_url target_parameters : pyval)
    (num_questions : option Z) : M bool :=
  testdata <- load_jsonl E testdata_path ;;
  let testdata := limit_questions testdata num_questions in
  healthy <- health_check E target_url target_parameters ;;
  if healthy then
    grade_and_report E openai_config testdata_path results_dir target_url target_parameters
                     num_questions testdata
  else ret false.

(** ** process_config *)

Definition TIMESTAMP : string := "<TIMESTAMP>".
Definition READFILE : string := "<READFILE>".

(** [pat in s] *)
Fixpoint contains (pat s : string) : bool :=
  prefix pat s ||
  match s with
  | "" => false
  | String _ rest => contains pat rest
  end.

(** [s.replace(old, new)] for a non-empty [old]: the occurrences of [old]
    are found from left to right and do not overlap; [skip] characters of
    the occurrence just replaced are still to be passed over. *)
Fixpoint replace_from (skip : nat) (old new s : string) : string :=
  match s with
  | "" => ""
  | String c rest =>
      match skip with
      | S k => replace_from k old new rest
      | O => if prefix old s
             then new ++ replace_from (String.length old - 1) old new rest
             else String c (replace_from 0 old new rest)
      end
  end.
Definition replace (old new s : string) : string := replace_from 0 old new s.

(** [str(n)] on an [int] *)
Definition str_int (n : Z) : string := NilZero.string_of_int (Z.to_int n).

(** Lines 179-185: what the loop does to a value that is a [str]. *)
Definition process_str (E : Env) (s : string) : M pyval :=
  if contains TIMESTAMP s then
    now <- clock E ;;
    ret (PStr (replace TIMESTAMP (str_int now) s))
  else if contains READFILE s then
    text <- open_read (replace READFILE "" s) ;;
    ret (PStr text)
  else ret (PStr s).

(** The object is updated in place; the model returns the updated object.
    The loop over the keys of [obj] visits its items in order. *)
Fixpoint process_config (E : Env) (obj : pyval) : M pyval :=
  match obj with
  | PDict items =>
      let fix for_key (items : list (string * pyval)) : M (list (string * pyval)) :=
        match items with
        | [] => ret []
        | (key, v) :: rest =>
            v' <- match v with
                  | PDict _ => process_config E v
                  | PStr s => process_str E s
                  | _ => ret v
                  end ;;
            rest' <- for_key rest ;;
            ret ((key, v') :: rest')
        end in
      items' <- for_key items ;;
      ret (PDict items')
  | _ => ret obj
  end.

(** ** run_evaluate_from_config *)

(** [Path(v)], [dir / v]: the operand has to be a [str]. *)
Definition as_path (v : pyval) : outcome string :=
  match v with
  | PStr s => Return s
  | _ => Raise TypeError
  end.

(** [config.get("target_parameters", {})] *)
Definition get_target_parameters (config : pyval) : outcome pyval :=
  match config with
  | PDict d => match dict_get d "target_parameters" with
               | Some v => Return v
               | None => Return (PDict [])
               end
  | _ => Raise TypeError
  end.

(** Lines 206-213. *)
Definition save_config (config_path results_dir : string) (evaluation_run_complete : bool)
  : M unit :=
  if evaluation_run_complete then
    file_open config_path ;;;
    open_write (path_join results_dir "config.json") ;;;
    text <- file_read config_path ;;
    file_write (path_join results_dir "config.json") text
  else ret tt.

Definition run_evaluate_from_config (E : Env) (working_dir config_path : string)
    (num_questions : option Z) : M unit :=
  let config_path := path_join working_dir config_path in
  text <- open_read config_path ;;
  config <- lift (json_loads E text) ;;
  config <- process_config E config ;;
  rd <- lift (obind (getitem config "results_dir") as_path) ;;
  let results_dir := path_join working_dir rd in
  openai_config <- get_openai_config E ;;
  td <- lift (obind (getitem config "testdata_path") as_path) ;;
  target_url <- lift (getitem config "target_url") ;;
  target_parameters <- lift (get_target_parameters config) ;;
  evaluation_run_complete <-
    run_evaluation E openai_config (path_join working_dir td) results_dir
                   target_url target_parameters num_questions ;;
  save_config config_path results_dir evaluation_run_complete.

(** ** Concrete surroundings for the examples *)

Fixpoint table_lookup {A} (tbl : list (string * A)) (s : string) : option A :=
  match tbl with
  | [] => None
  | (k, v) :: rest => if String.eqb k s then Some v else table_lookup rest s
  end.

(** An environment whose target answers every request with [reply], whose
    clock shows [now], whose JSON decoder knows the texts of [decoded], and
    whose grading call returns [graded_as] without calling the target. *)
Definition mock_env (reply : outcome response) (now : Z)
    (decoded : list (string * pyval)) (graded_as : outcome eval_results) : Env :=
  {| requests_post := fun _ _ _ => reply;
     time_time := fun _ => now;
     json_loads := fun s => match table_lookup decoded s with
                            | Some v => Return v
                            | None => Raise (LibraryError "JSONDecodeError" s)
                            end;
     json_dumps := fun _ => Return "{}";
     exn_text := fun e => match e with
                          | LibraryError _ msg => msg
                          | _ => "error"
                          end;
     int_of_str := fun _ => Raise (ValueError "invalid literal for int() with base 10");
     format_value := fun _ => "{...}";
     evaluate := fun _ _ _ _ => lift graded_as;
     get_openai_config := ret (PDict [("model", PStr "gpt-4")]) |}.

Definition no_grading : outcome eval_results := Raise (LibraryError "RuntimeError" "no grading").

Definition empty_world : world := World (fun _ => None) [].

(** [{"choices":[{"message":{"content":"hello"},
                  "context":{"data_points":{"text":["a","b"]}}}]}] *)
Definition mock_reply : pyval :=
  PDict [("choices",
          PList [PDict [("message", PDict [("content", PStr "hello")]);
                        ("context",
                         PDict [("data_points",
                                 PDict [("text", PList [PStr "a"; PStr "b"])])])]])].

(** [{"foo": "bar"}] *)
Definition foo_bar : pyval := PDict [("foo", PStr "bar")].

(** The world once the request for [question] has been sent. *)
Definition posted (w : world) (target_url : pyval) (question : string) (parameters : pyval)
  : world :=
  World (fs w) (trace w ++ [EvPost target_url (request_body question parameters)]).

(** A response that does not parse into the expected shape, and the error
    the parsing ends with. *)
Definition parse_failure (E : Env) (r : response) (e : exn) : Prop :=
  json r = Raise e \/
  exists v e0, json r = Return v /\ extract v = Raise e0
               /\ e = ValueError (schema_message E v).

(** ** What the aggregation is expected to compute *)

(** A rating that is a number: an [int] or a finite [float]. *)
Definition numericb (r : pyval) : bool :=
  match r with
  | PInt _ => true
  | PFloat (S754_zero _) => true
  | PFloat (S754_finite _ _ _) => true
  | _ => false
  end.

(** A rated record: an object with a string answer and a numeric rating
    for every graded metric. *)
Definition rated_recordb (q : pyval) : bool :=
  match q with
  | PDict d =>
      match dict_get d "answer" with
      | Some (PStr _) =>
          forallb (fun metric_name =>
                     match dict_get d metric_name with
                     | Some r => numericb r
                     | None => false
                     end) gpt_metrics
      | _ => false
      end
  | _ => false
  end.

(** The floor of a numeric rating. *)
Definition rating_floor (r : pyval) : Z :=
  match r with
  | PInt z => z
  | PFloat (S754_finite s m e) => float_num s m e / float_den e
  | _ => 0
  end.

Definition rating_of (metric_name : string) (q : pyval) : pyval :=
  match q with
  | PDict d => match dict_get d metric_name with
               | Some r => r
               | None => PNone
               end
  | _ => PNone
  end.

Definition answer_of (q : pyval) : string :=
  match rating_of "answer" q with
  | PStr a => a
  | _ => ""
  end.

(** The number of records of [qs] whose rating for the metric has a floor
    of at least 4. *)
Definition count_passing (metric_name : string) (qs : list pyval) : Z :=
  Z.of_nat (List.length
    (filter (fun q => 4 <=? rating_floor (rating_of metric_name q)) qs)).

(** The entries of the graded metrics once the records [qs], the first of
    index [ind], have been added to the entries [ms]. *)
Definition final_metrics (ind : Z) (qs : list pyval) (ms : list (string * metric))
  : list (string * metric) :=
  map (fun km =>
         let count := pass_count (snd km) + count_passing (fst km) qs in
         (fst km,
          Metric (mean_rating (snd km)) count
                 (match qs with
                  | [] => pass_rate (snd km)
                  | _ :: _ => PFloat (float_round2
                                (quotient64 count (ind + Z.of_nat (List.length qs))))
                  end))) ms.

Definition answer_length (q : pyval) : Z := Z.of_nat (String.length (answer_of q)).

Definition final_totals (ind : Z) (qs : list pyval) (t : totals) : totals :=
  Totals (final_metrics ind qs (metrics t))
         (fold_left (fun acc q => acc + answer_length q) qs (total_length t))
         (fold_left (fun acc q => Z.max acc (answer_length q)) qs (max_length t))
         (fold_left (fun acc q => Z.min acc (answer_length q)) qs (min_length t))
         (fold_left (fun acc q => acc + (if has_citation (answer_of q) then 1 else 0)) qs
                    (total_with_citation t)).

(** A rated record with the given answer and the same rating for the three
    graded metrics. *)
Definition rated (a : string) (r : pyval) : pyval :=
  PDict [("question", PStr "q"); ("answer", PStr a);
         ("gpt_coherence", r); ("gpt_relevance", r); ("gpt_groundedness", r)].

(** The ratings 5, 3 and 4 (the last as the float 4.0). *)
Definition ratings_5_3_4 : list pyval :=
  [rated "see [doc.pdf]" (PInt 5); rated "no citation here" (PInt 3);
   rated "[a][b]" (PFloat (S754_finite false 4503599627370496 (-50)))].

Definition mean_ratings : pyval :=
  PDict [("mean_gpt_coherence", PFloat (S754_finite false 4503599627370496 (-50)));
         ("mean_gpt_relevance", PInt 4);
         ("mean_gpt_groundedness", PInt 4)].

(** The world once the grading call has been announced. *)
Definition grading (w : world) (testdata : list pyval) (results_dir : string) : world :=
  World (fs w) (trace w ++ [EvEvaluate testdata results_dir]).

(** The world once the file [path] has been opened for reading. *)
Definition opened (w : world) (path : string) : world :=
  World (fs w) (trace w ++ [EvOpenRead path]).

(** A grading call that rated nothing: its artifact is an empty file. *)
Definition graded_nothing : outcome eval_results :=
  Return (EvalResults mean_ratings [("eval_results.jsonl", PNone)]).

Definition empty_artifact_world : world :=
  World (set_file "results/eval_results.jsonl" "" (fun _ => None)) [].

Definition three_records : list pyval := [PStr "r1"; PStr "r2"; PStr "r3"].

(** ** Markers in strings and configurations *)

Fixpoint mem_char (c : ascii) (s : string) : bool :=
  match s with
  | "" => false
  | String a rest => Ascii.eqb c a || mem_char c rest
  end.

Fixpoint all_chars (P : ascii -> bool) (s : string) : bool :=
  match s with
  | "" => true
  | String a rest => P a && all_chars P rest
  end.

(** A character of a decimal numeral: a digit or the minus sign. *)
Definition numeral_char (c : ascii) : bool := mem_char c "0123456789-".

(** [pat] occurs in [s] at a place where [old] does not start. *)
Fixpoint unmatched (pat old s : string) : bool :=
  (prefix pat s && negb (prefix old s)) ||
  match s with
  | "" => false
  | String _ rest => unmatched pat old rest
  end.

Definition marker_free (s : string) : bool :=
  negb (contains TIMESTAMP s) && negb (contains READFILE s).

Definition not_both (s : string) : bool :=
  negb (contains TIMESTAMP s && contains READFILE s).

(** Every string value of [v], at any depth, satisfies [P]. *)
Fixpoint all_strings (P : string -> bool) (v : pyval) : bool :=
  match v with
  | PStr s => P s
  | PList l =>
      (fix go (l : list pyval) : bool :=
         match l with
         | [] => true
         | x :: rest => all_strings P x && go rest
         end) l
  | PDict d =>
      (fix go (d : list (string * pyval)) : bool :=
         match d with
         | [] => true
         | (_, x) :: rest => all_strings P x && go rest
         end) d
  | _ => true
  end.

(** A configuration value: a string, or a mapping of configuration
    values. *)
Fixpoint config_value (v : pyval) : bool :=
  match v with
  | PStr _ => true
  | PDict d =>
      (fix go (d : list (string * pyval)) : bool :=
         match d with
         | [] => true
         | (_, x) :: rest => config_value x && go rest
         end) d
  | _ => false
  end.

Definition config_mapping (v : pyval) : bool :=
  match v with
  | PDict _ => config_value v
  | _ => false
  end.

(** What the loop of [process_config] does to the value of one key, and
    the loop itself. *)
Definition process_value (E : Env) (v : pyval) : M pyval :=
  match v with
  | PDict _ => process_config E v
  | PStr s => process_str E s
  | _ => ret v
  end.

Definition process_items (E : Env) : list (string * pyval) -> M (list (string * pyval)) :=
  fix for_key (items : list (string * pyval)) : M (list (string * pyval)) :=
    match items with
    | [] => ret []
    | (key, v) :: rest =>
        v' <- process_value E v ;;
        rest' <- for_key rest ;;
        ret ((key, v') :: rest')
    end.

(** The value found by following the keys [path] through nested
    mappings. *)
Fixpoint value_at (path : list string) (v : pyval) : option pyval :=
  match path with
  | [] => Some v
  | key :: rest =>
      match v with
      | PDict d => match dict_get d key with
                   | Some x => value_at rest x
                   | None => None
                   end
      | _ => None
      end
  end.

(** The world once the clock has been read. *)
Definition timed (w : world) : world := World (fs w) (trace w ++ [EvTime]).

(** The contents that [process_config] puts in the place of the string [s]
    when [s] asks for a file: they are free of markers. *)
Definition substituted_free (files : string -> option string) (s : string) : bool :=
  if contains TIMESTAMP s then true
  else if contains READFILE s then
    match files (replace READFILE "" s) with
    | Some text => marker_free (universal_newlines text)
    | None => true
    end
  else true.

(** A run configuration with both kinds of marker, and the file it names. *)
Definition sample_config : pyval :=
  PDict [("testdata_path", PStr "qa.jsonl");
         ("results_dir", PStr "results/run<TIMESTAMP>");
         ("target_url", PStr "http://target/chat");
         ("target_parameters",
          PDict [("overrides",
                  PDict [("prompt_template", PStr "<READFILE>prompt.txt")])])].

Definition sample_world : world :=
  World (set_file "prompt.txt" "Answer briefly." (fun _ => None)) [].

(** A value of the form [<READFILE>] followed by a path, where the path
    has the timestamp marker in it, and a world with that file. *)
Definition stamped_path_value : string := "<READFILE>notes_<TIMESTAMP>.txt".

Definition stamped_path_world : world :=
  World (set_file "notes_<TIMESTAMP>.txt" "file text" (fun _ => None)) [].

(** ** A run against a target that is down *)

Definition quote : string := String "034"%char "".

(** The one line of the dataset file, and the record it decodes to. *)
Definition dataset_text : string :=
  "{" ++ quote ++ "question" ++ quote ++ ": " ++ quote ++ "q1" ++ quote ++ "}" ++ nl.

Definition dataset_record : pyval := PDict [("question", PStr "q1")].

Definition plain_config_text : string :=
  "{" ++ quote ++ "testdata_path" ++ quote ++ ": " ++ quote ++ "qa.jsonl" ++ quote ++ ", ...}".

Definition plain_config : pyval :=
  PDict [("testdata_path", PStr "qa.jsonl");
         ("results_dir", PStr "results");
         ("target_url", PStr "http://target/chat")].

Definition connection_refused : exn := LibraryError "ConnectionError" "connection refused".

(** The target refuses the connection; the grading call is never reached. *)
Definition down_env : Env :=
  mock_env (Raise connection_refused) 1700000000
           [(dataset_text, dataset_record); (plain_config_text, plain_config)]
           no_grading.

Definition down_world : world :=
  World (set_file "eval/qa.jsonl" dataset_text
           (set_file "eval/config.json" plain_config_text (fun _ => None))) [].

(** ** Statements about lines, citations and cuts *)

(** A line with its line end. *)
Definition terminated (l : string) : string := l ++ nl.

(** What a line of [readlines] looks like: not empty, with no line end
    but possibly a last one. *)
Definition line_shape (l : string) : Prop :=
  l <> "" /\
  exists body, mem_char newline body = false /\ (l = body ++ nl \/ l = body).

(** The text has a bracketed citation: an opening bracket, a body that is
    not empty and has no closing bracket, a closing bracket. *)
Definition cites (s : string) : Prop :=
  exists pre body post,
    s = pre ++ "[" ++ body ++ "]" ++ post
    /\ body <> "" /\ mem_char "]" body = false.

Definition zsum (l : list Z) : Z := fold_right Z.add 0 l.

(** The number of records whose answer has a citation. *)
Definition count_cited (qs : list pyval) : Z :=
  Z.of_nat (List.length (filter (fun q => has_citation (answer_of q)) qs)).

(** ** Statements about the materializer *)

(** The value with every string value of its mappings blanked: what is
    left is the keys, their order, the nesting, and every value that is
    neither a string nor a mapping. *)
Fixpoint blank_strings (v : pyval) : pyval :=
  match v with
  | PStr _ => PStr ""
  | PDict d =>
      PDict ((fix go (d : list (string * pyval)) : list (string * pyval) :=
                match d with
                | [] => []
                | (k, x) :: rest => (k, blank_strings x) :: go rest
                end) d)
  | _ => v
  end.

Definition read_event (ev : event) : Prop :=
  ev = EvTime \/ exists path, ev = EvOpenRead path.

(** From [w] to [w'] the files are the same and all that happened is
    readings of the clock and openings of files for reading. *)
Definition reads_only (w w' : world) : Prop :=
  fs w' = fs w /\
  exists evs, trace w' = (trace w ++ evs)%list /\ Forall read_event evs.

(** A configuration with a marker inside a list, which the materializer
    does not enter. *)
Definition listed_marker_config : pyval :=
  PDict [("results_dir", PStr "results/<TIMESTAMP>");
         ("tags", PList [PStr "<TIMESTAMP>"; PStr "<READFILE>prompt.txt"]);
         ("top", PInt 3)].

(** A rated record with no answer, and one whose first rating is NaN. *)
Definition unanswered_record : list (string * pyval) :=
  [("question", PStr "q"); ("gpt_coherence", PInt 5)].

Definition nan_rated_record : list (string * pyval) :=
  [("question", PStr "q"); ("answer", PStr "a"); ("gpt_coherence", PFloat S754_nan);
   ("gpt_relevance", PInt 5); ("gpt_groundedness", PInt 5)].

Definition fresh_metrics : list (string * metric) :=
  [("gpt_coherence", Metric (PInt 4) 0 (PInt 0));
   ("gpt_relevance", Metric (PInt 4) 0 (PInt 0));
   ("gpt_groundedness", Metric (PInt 4) 0 (PInt 0))].

(** ** A run that reaches the reports *)

Definition rated_line : string := "{rated record}" ++ nl.

(** The target answers the probe with the mock reply; the grading call
    returns one artifact, which is in the results directory already. *)
Definition report_env : Env :=
  mock_env (Return (Response (Return mock_reply))) 1700000000
           [(rated_line, rated "see [doc.pdf]" (PInt 5))]
           (Return (EvalResults mean_ratings [("eval_results.jsonl", PNone)])).

Definition report_world : world :=
  World (set_file "results/eval_results.jsonl" rated_line (fun _ => None)) [].

(** The parameters that are reported, for the clock reading [now]. *)
Definition run_parameters (openai_model : pyval) (now : Z) (testdata_path : string)
    (target_url target_parameters : pyval) (num_questions : option Z) : pyval :=
  PDict [("evaluation_gpt_model", openai_model);
         ("evaluation_timestamp", PInt now);
         ("testdata_path", PStr testdata_path);
         ("target_url", target_url);
         ("target_parameters", target_parameters);
         ("num_questions", num_questions_to_py num_questions)].

(** A reply of the expected shape whose answer is null. *)
Definition null_answer_reply : pyval :=
  PDict [("choices",
          PList [PDict [("message", PDict [("content", PNone)]);
                        ("context",
                         PDict [("data_points",
                                 PDict [("text", PList [PStr "a"; PStr "b"])])])]])].

Definition null_answer_env : Env :=
  mock_env (Return (Response (Return null_answer_reply))) 1700000000
           [(dataset_text, dataset_record); (plain_config_text, plain_config)]
           no_grading.

(** Lines 156-167, the last part of [grade_and_report]: the parameters of
    the run are written to [evaluate_parameters.json]. *)
Definition write_parameters (E : Env) (openai_config : pyval)
    (testdata_path results_dir : string) (target_url target_parameters : pyval)
    (num_questions : option Z) : M bool :=
  open_write (path_join results_dir "evaluate_parameters.json") ;;;
  model <- lift (getitem openai_config "model") ;;
  now <- clock E ;;
  dumped' <- lift (json_dumps E
    (PDict [("evaluation_gpt_model", model);
            ("evaluation_timestamp", PInt now);
            ("testdata_path", PStr testdata_path);
            ("target_url", target_url);
            ("target_parameters", target_parameters);
            ("num_questions", num_questions_to_py num_questions)])) ;;
  file_write (path_join results_dir "evaluate_parameters.json") dumped' ;;;
  ret true.

(** The world once the summary has been written, [w1] being the world the
    grading call left and [artifact] the path of its first artifact. *)
Definition summarized (w1 : world) (artifact results_dir dumped : string) : world :=
  World (set_file (path_join results_dir "summary.json") dumped
           (set_file (path_join results_dir "summary.json") "" (fs w1)))
        (trace w1 ++ [EvOpenRead artifact;
                      EvOpenWrite (path_join results_dir "summary.json");
                      EvWrite (path_join results_dir "summary.json") dumped]).

(** ** approaches/chatreadretrieveread.py: run_until_final_call *)

(** Truth value of a Python value. *)
Definition truthy (v : pyval) : bool :=
  match v with
  | PNone => false
  | PBool b => b
  | PInt z => negb (z =? 0)
  | PFloat (S754_zero _) => false
  | PFloat _ => true
  | PStr s => negb (String.eqb s "")
  | PList l => match l with [] => false | _ :: _ => true end
  | PDict d => match d with [] => false | _ :: _ => true end
  end.

(** [d.get(key, default)]; [d.get(key)] is [dict_get_or d key PNone]. *)
Definition dict_get_or (d : list (string * pyval)) (key : string) (default : pyval) : pyval :=
  match dict_get d key with
  | Some v => v
  | None => default
  end.

(** [x in ["text", "hybrid", None]] and [x in ["vectors", "hybrid", None]] *)
Definition in_text_modes (x : pyval) : bool :=
  match x with
  | PNone => true
  | PStr s => String.eqb s "text" || String.eqb s "hybrid"
  | _ => false
  end.

Definition in_vector_modes (x : pyval) : bool :=
  match x with
  | PNone => true
  | PStr s => String.eqb s "vectors" || String.eqb s "hybrid"
  | _ => false
  end.

(** [history[-1]] *)
Fixpoint last_item (l : list pyval) : outcome pyval :=
  match l with
  | [] => Raise IndexError
  | [x] => Return x
  | _ :: rest => last_item rest
  end.

(** [prefix + v] for a string literal [prefix] *)
Definition str_add (prefix : string) (v : pyval) : outcome string :=
  match v with
  | PStr s => Return (prefix ++ s)
  | _ => Raise TypeError
  end.

(** The literal [0.3]. *)
Definition float_0_3 : spec_float := Eval vm_compute in quotient64 3 10.

(** The approach object: its fields, and the methods of the base class
    that [run_until_final_call] calls ([build_filter], [get_system_prompt],
    [get_messages_from_history]); [str_message] is [str] on a message. *)
Record ChatApproach : Type := {
  chatgpt_model : string;
  chatgpt_deployment : pyval;
  chatgpt_token_limit : Z;
  follow_up_questions_prompt_content : string;
  build_filter : list (string * pyval) -> pyval -> outcome pyval;
  get_system_prompt : pyval -> string -> outcome string;
  get_messages_from_history :
    string -> string -> list pyval -> pyval -> Z -> outcome (list pyval);
  str_message : pyval -> string
}.

Record thought_step : Type := ThoughtStep {
  title : string;
  description : list string;
  props : list (string * pyval)
}.

(** The arguments of [openai_client.chat.completions.create], whose
    coroutine the function returns without awaiting it. *)
Record completion_request : Type := CompletionRequest {
  req_model : pyval;
  req_messages : list pyval;
  req_temperature : pyval;
  req_max_tokens : Z;
  req_n : Z;
  req_stream : bool
}.

Definition run_until_final_call (self : ChatApproach) (history : list pyval)
    (overrides : list (string * pyval)) (auth_claims : pyval) (should_stream : bool)
  : outcome (list thought_step * completion_request) :=
  let has_text := in_text_modes (dict_get_or overrides "retrieval_mode" PNone) in
  let has_vector := in_vector_modes (dict_get_or overrides "retrieval_mode" PNone) in
  let use_semantic_captions :=
    truthy (dict_get_or overrides "semantic_captions" PNone) && has_text in
  let top := dict_get_or overrides "top" (PInt 3) in
  let minimum_search_score :=
    dict_get_or overrides "minimum_search_score" (PFloat (S754_zero false)) in
  let minimum_reranker_score :=
    dict_get_or overrides "minimum_reranker_score" (PFloat (S754_zero false)) in
  obind (build_filter self overrides auth_claims) (fun filter =>
  let use_semantic_ranker :=
    truthy (dict_get_or overrides "semantic_ranker" PNone) && has_text in
  obind (last_item history) (fun last_message =>
  obind (getitem last_message "content") (fun original_user_query =>
  obind (str_add "Generate search query for: " original_user_query) (fun user_query_request =>
  obind (get_system_prompt self
           (dict_get_or overrides "prompt_template" PNone)
           (if truthy (dict_get_or overrides "suggest_followup_questions" PNone)
            then follow_up_questions_prompt_content self else "")) (fun system_message =>
  let response_token_limit := 1024 in
  let messages_token_limit := chatgpt_token_limit self - response_token_limit in
  obind (get_messages_from_history self system_message (chatgpt_model self) history
           original_user_query messages_token_limit) (fun messages =>
  Return
    ([ThoughtStep "Prompt to generate answer" (map (str_message self) messages)
        (if truthy (chatgpt_deployment self)
         then [("model", PStr (chatgpt_model self));
               ("deployment", chatgpt_deployment self)]
         else [("model", PStr (chatgpt_model self))])],
     CompletionRequest
       (if truthy (chatgpt_deployment self) then chatgpt_deployment self
        else PStr (chatgpt_model self))
       messages
       (dict_get_or overrides "temperature" (PFloat float_0_3))
       response_token_limit 1 should_stream))))))).

(** An approach whose prompt is the system prompt followed by the user
    content, for a model of 4097 tokens deployed as [chat]. *)
Definition sample_approach : ChatApproach :=
  {| chatgpt_model := "gpt-35-turbo";
     chatgpt_deployment := PStr "chat";
     chatgpt_token_limit := 4097;
     follow_up_questions_prompt_content := "Generate 3 follow-up questions.";
     build_filter := fun _ _ => Return PNone;
     get_system_prompt := fun template follow_up =>
       match template with
       | PStr t => Return (t ++ follow_up)
       | _ => Return ("Assistant generates Python code." ++ follow_up)
       end;
     get_messages_from_history := fun system model history content limit =>
       Return [PDict [("role", PStr "system"); ("content", PStr system)];
               PDict [("role", PStr "user"); ("content", content)]];
     str_message := fun _ => "message" |}.

Definition sample_history : list pyval :=
  [PDict [("role", PStr "user"); ("content", PStr "Plot waste emissions by country")]].

(** A world whose prompt file has a carriage return and line feed after
    its first line and a carriage return alone after its second. *)
Definition crlf_world : world :=
  World (set_file "prompt.txt"
           ("Answer briefly." ++ String carriage_return nl
            ++ "Cite sources." ++ String carriage_return "")
           (fun _ => None)) [].

(** ** Runs that save their configuration *)

(** The configuration file as a system with other line ends wrote it: it
    ends in a carriage return and a line feed. *)
Definition crlf_config_text : string := plain_config_text ++ String carriage_return nl.

(** The target answers the probe with the mock reply; the grading call
    returns one artifact, which is in the results directory already. The
    decoder knows the configuration as it is read in text mode. *)
Definition copy_env : Env :=
  mock_env (Return (Response (Return mock_reply))) 1700000000
           [(dataset_text, dataset_record);
            (plain_config_text ++ nl, plain_config);
            (rated_line, rated "see [doc.pdf]" (PInt 5))]
           (Return (EvalResults mean_ratings [("eval_results.jsonl", PNone)])).

Definition copy_world : world :=
  World (set_file "eval/results/eval_results.jsonl" rated_line
           (set_file "eval/qa.jsonl" dataset_text
              (set_file "eval/config.json" crlf_config_text (fun _ => None)))) [].

(** A configuration whose results directory is the directory of the
    configuration file. *)
Definition same_dir_config : pyval :=
  PDict [("testdata_path", PStr "qa.jsonl");
         ("results_dir", PStr ".");
         ("target_url", PStr "http://target/chat")].

Definition same_dir_env : Env :=
  mock_env (Return (Response (Return mock_reply))) 1700000000
           [(dataset_text, dataset_record);
            (plain_config_text, same_dir_config);
            (rated_line, rated "see [doc.pdf]" (PInt 5))]
           (Return (EvalResults mean_ratings [("eval_results.jsonl", PNone)])).

Definition same_dir_world : world :=
  World (set_file "eval/eval_results.jsonl" rated_line
           (set_file "eval/qa.jsonl" dataset_text
              (set_file "eval/config.json" plain_config_text (fun _ => None)))) [].

(** * Properties *)

Ltac run_monad :=
  unfold bind, ret, raise, lift, try_except, log, obind in *; simpl in *.

Lemma all_str_map (ss : list string) : all_str (map PStr ss) = Return ss.
Proof.
  induction ss as [|s ss IH]; simpl; [reflexivity|].
  rewrite IH. reflexivity.
Qed.

(** ** The target invoker *)

(** C3: when the response of the target has the answer [A] at
    [choices[0].message.content] and the strings [ss] at
    [choices[0].context.data_points.text], the call returns the question,
    [A] as the answer and [ss] joined by blank lines as the context,
    whatever [raise_error] is. *)
Theorem send_question_to_target_parses
    (E : Env) (q : string) (url params : pyval) (raise_error : bool) (w : world)
    (r : response) (d dc dm dx dp : list (string * pyval)) (others : list pyval)
    (A : pyval) (ss : list string) :
  requests_post E (posted w url q params) url (request_body q params) = Return r ->
  json r = Return (PDict d) ->
  dict_get d "choices" = Some (PList (PDict dc :: others)) ->
  dict_get dc "message" = Some (PDict dm) ->
  dict_get dm "content" = Some A ->
  dict_get dc "context" = Some (PDict dx) ->
  dict_get dx "data_points" = Some (PDict dp) ->
  dict_get dp "text" = Some (PList (map PStr ss)) ->
  send_question_to_target E q url params raise_error w
  = (Return (TargetResponse q A (join blank_line ss)), posted w url q params).
Proof.
  intros Hpost Hjson Hch Hmsg Hcontent Hctx Hdp Htext.
  unfold send_question_to_target, posted in *. run_monad.
  rewrite Hpost, Hjson. unfold extract, getitem. simpl.
  rewrite Hch. simpl. rewrite Hmsg. simpl. rewrite Hcontent. simpl.
  rewrite Hctx. simpl. rewrite Hdp. simpl. rewrite Htext. simpl.
  rewrite all_str_map. reflexivity.
Qed.

(** The mock response with content "hello" and text ["a", "b"]. *)
Lemma send_question_to_target_mock :
  send_question_to_target (mock_env (Return (Response (Return mock_reply))) 0 [] no_grading)
    "Q" (PStr "http://target/chat") (PDict []) false empty_world
  = (Return (TargetResponse "Q" (PStr "hello") ("a" ++ nl ++ nl ++ "b")),
     posted empty_world (PStr "http://target/chat") "Q" (PDict [])).
Proof.
  apply (send_question_to_target_parses
           (mock_env (Return (Response (Return mock_reply))) 0 [] no_grading)
           "Q" (PStr "http://target/chat") (PDict []) false empty_world
           (Response (Return mock_reply))
           [("choices",
             PList [PDict [("message", PDict [("content", PStr "hello")]);
                           ("context",
                            PDict [("data_points",
                                    PDict [("text", PList [PStr "a"; PStr "b"])])])]])]
           [("message", PDict [("content", PStr "hello")]);
            ("context", PDict [("data_points", PDict [("text", PList [PStr "a"; PStr "b"])])])]
           [("content", PStr "hello")]
           [("data_points", PDict [("text", PList [PStr "a"; PStr "b"])])]
           [("text", PList [PStr "a"; PStr "b"])]
           [] (PStr "hello") ["a"; "b"]); reflexivity.
Defined.

(** C4: when the response does not parse and the parsing ends with the
    error [e], the call with [raise_error] raises [e], and the call without
    it returns the question with [str(e)] as both answer and context. *)
Theorem send_question_to_target_failure
    (E : Env) (q : string) (url params : pyval) (w : world) (r : response) (e : exn) :
  requests_post E (posted w url q params) url (request_body q params) = Return r ->
  parse_failure E r e ->
  send_question_to_target E q url params true w = (Raise e, posted w url q params)
  /\ send_question_to_target E q url params false w
     = (Return (TargetResponse q (PStr (str_exn E e)) (str_exn E e)), posted w url q params).
Proof.
  intros Hpost Hfail.
  unfold send_question_to_target, posted in *. run_monad. rewrite Hpost.
  destruct Hfail as [Hjson | (v & e0 & Hjson & Hextract & ->)]; rewrite Hjson.
  - split; reflexivity.
  - rewrite Hextract. split; reflexivity.
Qed.

(** The mock response [{"foo": "bar"}]: the error is the schema error. *)
Lemma send_question_to_target_foo_bar :
  let E := mock_env (Return (Response (Return foo_bar))) 0 [] no_grading in
  let e := ValueError (schema_message E foo_bar) in
  send_question_to_target E "Q" (PStr "http://target/chat") (PDict []) true empty_world
  = (Raise e, posted empty_world (PStr "http://target/chat") "Q" (PDict []))
  /\ send_question_to_target E "Q" (PStr "http://target/chat") (PDict []) false empty_world
     = (Return (TargetResponse "Q" (PStr (str_exn E e)) (str_exn E e)),
        posted empty_world (PStr "http://target/chat") "Q" (PDict [])).
Proof.
  intros E e.
  apply (send_question_to_target_failure E "Q" (PStr "http://target/chat") (PDict [])
           empty_world (Response (Return foo_bar)) e).
  - reflexivity.
  - right. exists foo_bar, (KeyError "choices"). repeat split; reflexivity.
Defined.

(** ** The metric aggregator *)

Arguments quotient64 : simpl never.
Arguments float_round2 : simpl never.

Lemma float_den_pos (e : Z) : 0 < float_den e.
Proof. unfold float_den. apply Z.pow_pos_nonneg; lia. Qed.

(** Truncation and floor agree on whether a rating reaches the threshold. *)
Lemma quot_div_threshold (n d : Z) : 0 < d -> (4 <=? Z.quot n d) = (4 <=? n / d).
Proof.
  intros Hd. destruct (Z.le_gt_cases 0 n) as [Hn | Hn].
  - rewrite Z.quot_div_nonneg by lia. reflexivity.
  - assert (Hq : Z.quot n d <= 0).
    { rewrite <- (Z.opp_involutive n), Z.quot_opp_l by lia.
      pose proof (Z.quot_pos (- n) d ltac:(lia) Hd). lia. }
    assert (Hv : n / d < 0) by (apply Z.div_lt_upper_bound; lia).
    destruct (Z.leb_spec 4 (Z.quot n d)), (Z.leb_spec 4 (n / d)); try reflexivity; lia.
Qed.

Lemma passes_threshold_floor (E : Env) (r : pyval) :
  numericb r = true -> passes_threshold E r = Return (4 <=? rating_floor r).
Proof.
  unfold passes_threshold.
  destruct r as [| | z | [s | s | | s m e] | | |]; simpl; try discriminate; intros _;
    try reflexivity.
  f_equal. apply quot_div_threshold, float_den_pos.
Qed.

Lemma count_passing_cons (k : string) (q : pyval) (qs : list pyval) :
  count_passing k (q :: qs)
  = (if 4 <=? rating_floor (rating_of k q) then 1 else 0) + count_passing k qs.
Proof.
  unfold count_passing. simpl.
  destruct (4 <=? rating_floor (rating_of k q)); simpl List.length; lia.
Qed.

Lemma count_passing_nil (k : string) : count_passing k [] = 0.
Proof. reflexivity. Qed.

Lemma int_truediv_pos (a b : Z) : 0 < b -> int_truediv a b = Return (quotient64 a b).
Proof.
  intros Hb. unfold int_truediv. destruct (Z.eqb_spec b 0); [lia | reflexivity].
Qed.

(** One record, the three graded metrics. *)
Lemma rate_metrics_ok (E : Env) (ind : Z) (q : pyval) (ms : list (string * metric)) :
  rated_recordb q = true ->
  map fst ms = gpt_metrics ->
  0 <= ind ->
  rate_metrics E ind q gpt_metrics ms = Return (final_metrics ind [q] ms).
Proof.
  intros Hq Hms Hind.
  destruct q as [| | | | | |d]; try discriminate.
  simpl in Hq. destruct (dict_get d "answer") as [[| | | |a| |]|]; try discriminate.
  destruct (dict_get d "gpt_coherence") as [r1|] eqn:H1; [|discriminate].
  destruct (dict_get d "gpt_relevance") as [r2|] eqn:H2;
    [|rewrite andb_false_r in Hq; discriminate].
  destruct (dict_get d "gpt_groundedness") as [r3|] eqn:H3;
    [|rewrite !andb_false_r in Hq; discriminate].
  rewrite andb_true_r in Hq.
  apply andb_prop in Hq as [N1 Hq]. apply andb_prop in Hq as [N2 N3].
  destruct ms as [|[k1 m1] [|[k2 m2] [|[k3 m3] [|]]]]; try discriminate.
  injection Hms as -> -> ->.
  unfold final_metrics, gpt_metrics, rate_metrics, getitem.
  rewrite H1, H2, H3. cbn [obind].
  rewrite !passes_threshold_floor by assumption. cbn [obind].
  cbn [map fst snd].
  rewrite !count_passing_cons, !count_passing_nil.
  unfold rating_of. rewrite H1, H2, H3.
  change (Z.of_nat (List.length [PDict d])) with 1.
  unfold rate_metric.
  repeat (cbn [map fst snd update_metric String.eqb Ascii.eqb Bool.eqb obind
               pass_count mean_rating];
          rewrite ?int_truediv_pos by lia).
  destruct (4 <=? rating_floor r1), (4 <=? rating_floor r2), (4 <=? rating_floor r3);
    rewrite ?Z.add_0_r; reflexivity.
Qed.

Lemma final_metrics_keys (ind : Z) (qs : list pyval) (ms : list (string * metric)) :
  map fst (final_metrics ind qs ms) = map fst ms.
Proof.
  unfold final_metrics. rewrite map_map. reflexivity.
Qed.

Lemma final_metrics_cons (ind : Z) (q : pyval) (rest : list pyval)
    (ms : list (string * metric)) :
  final_metrics (ind + 1) rest (final_metrics ind [q] ms) = final_metrics ind (q :: rest) ms.
Proof.
  unfold final_metrics. rewrite map_map. apply map_ext. intros [k m].
  cbn [fst snd pass_count mean_rating pass_rate].
  rewrite (count_passing_cons k q rest), (count_passing_cons k q []), count_passing_nil.
  rewrite Z.add_0_r, Z.add_assoc.
  destruct rest as [|q' rest].
  - rewrite count_passing_nil, Z.add_0_r. reflexivity.
  - change (List.length (q :: q' :: rest)) with (S (List.length (q' :: rest))).
    replace (ind + Z.of_nat (S (List.length (q' :: rest))))
      with (ind + 1 + Z.of_nat (List.length (q' :: rest))) by lia.
    reflexivity.
Qed.

Lemma aggregate_step_ok (E : Env) (ind : Z) (q : pyval) (t : totals) :
  rated_recordb q = true ->
  map fst (metrics t) = gpt_metrics ->
  0 <= ind ->
  aggregate_step E ind q t = Return (final_totals ind [q] t).
Proof.
  intros Hq Hms Hind. unfold aggregate_step.
  rewrite (rate_metrics_ok E ind q (metrics t) Hq Hms Hind).
  destruct q as [| | | | | |d]; try discriminate.
  simpl in Hq. destruct (dict_get d "answer") as [[| | | |a| |]|] eqn:Ha; try discriminate.
  unfold final_totals, getitem. cbn [fold_left].
  unfold answer_length, answer_of, rating_of. rewrite Ha. reflexivity.
Qed.

(** The loop over the rated records computes [final_totals]. *)
Lemma aggregate_loop_ok (E : Env) (qs : list pyval) :
  forall (ind : Z) (t : totals),
    forallb rated_recordb qs = true ->
    map fst (metrics t) = gpt_metrics ->
    0 <= ind ->
    aggregate_loop E ind qs t = Return (final_totals ind qs t).
Proof.
  induction qs as [|q rest IH]; intros ind t Hqs Hms Hind.
  - unfold final_totals, final_metrics. simpl.
    rewrite (map_ext _ (fun km => km)), map_id.
    + destruct t; reflexivity.
    + intros [k [mr pc pr]]. simpl. rewrite count_passing_nil, Z.add_0_r. reflexivity.
  - simpl in Hqs. apply andb_prop in Hqs as [Hq Hrest].
    cbn [aggregate_loop]. rewrite (aggregate_step_ok E ind q t Hq Hms Hind).
    cbn [obind]. rewrite IH; try assumption; try lia.
    + f_equal. unfold final_totals. cbn [metrics total_length max_length min_length
                                          total_with_citation fold_left].
      rewrite final_metrics_cons. reflexivity.
    + unfold final_totals. cbn [metrics]. rewrite final_metrics_keys. exact Hms.
Qed.

Lemma init_metrics_shape (ms : pyval) (names : list string) :
  forall m0, init_metrics ms names = Return m0 ->
             map fst m0 = names /\ Forall (fun km => pass_count (snd km) = 0) m0.
Proof.
  induction names as [|n names IH]; intros m0 H; cbn [init_metrics] in H.
  - injection H as <-. split; constructor.
  - destruct (getitem ms ("mean_" ++ n)) as [mean|]; [|discriminate].
    cbn [obind] in H. destruct (py_round2 mean) as [rounded|]; [|discriminate].
    cbn [obind] in H. destruct (init_metrics ms names) as [rest|]; [|discriminate].
    cbn [obind] in H. injection H as <-.
    destruct (IH rest eq_refl) as [Hk Hc]. split.
    + simpl. f_equal. exact Hk.
    + constructor; [reflexivity | exact Hc].
Qed.

(** C8: over a non-empty sequence of rated records, the aggregation
    succeeds; for each graded metric, [pass_count] is the number of records
    whose rating has a floor of at least 4 (the code truncates, which agrees
    with the floor at this threshold), and the final [pass_rate] is
    [pass_count / n] rounded to two decimals. In particular the ratings
    5, 3, 4 give [pass_count = 2] and [pass_rate = 0.67]. *)
Theorem aggregate_pass_rate :
  (forall (E : Env) (ms : pyval) (m0 : list (string * metric)) (qs : list pyval),
      qs <> [] ->
      forallb rated_recordb qs = true ->
      init_metrics ms gpt_metrics = Return m0 ->
      exists s,
        aggregate E m0 qs = Return s
        /\ map fst (graded s) = gpt_metrics
        /\ forall name m,
             In (name, m) (graded s) ->
             pass_count m = count_passing name qs
             /\ pass_rate m
                = PFloat (float_round2
                            (quotient64 (pass_count m) (Z.of_nat (List.length qs)))))
  /\ (forall E : Env,
        exists s,
          obind (init_metrics mean_ratings gpt_metrics)
                (fun m0 => aggregate E m0 ratings_5_3_4) = Return s
          /\ map (fun km => (fst km, pass_count (snd km), pass_rate (snd km))) (graded s)
             = [("gpt_coherence", 2, PFloat (hundredths false 67));
                ("gpt_relevance", 2, PFloat (hundredths false 67));
                ("gpt_groundedness", 2, PFloat (hundredths false 67))]).
Proof.
  split.
  - intros E ms m0 qs Hne Hqs Hinit.
    destruct (init_metrics_shape ms gpt_metrics m0 Hinit) as [Hkeys Hzero].
    unfold aggregate.
    rewrite (aggregate_loop_ok E qs 0 (Totals m0 0 0 9999999999 0) Hqs Hkeys (Z.le_refl 0)).
    cbn [obind]. rewrite !int_truediv_pos by (destruct qs; [congruence | simpl; lia]).
    cbn [obind]. eexists. split; [reflexivity|].
    cbn [graded final_totals metrics]. split.
    + rewrite final_metrics_keys. exact Hkeys.
    + intros name m Hin. unfold final_metrics in Hin.
      apply in_map_iff in Hin as ([k m'] & Heq & Hin').
      rewrite Forall_forall in Hzero. specialize (Hzero _ Hin').
      cbn [fst snd] in Heq, Hzero. injection Heq as <- <-.
      cbn [pass_count]. rewrite Hzero, !Z.add_0_l.
      split; [reflexivity|]. destruct qs; [congruence | reflexivity].
  - intros E. eexists. split; vm_compute; reflexivity.
Qed.

Lemma aggregate_pass_rate_witness :
  exists s,
    aggregate (mock_env (Raise TypeError) 0 [] no_grading)
              [("gpt_coherence", Metric (PInt 4) 0 (PInt 0));
               ("gpt_relevance", Metric (PInt 4) 0 (PInt 0));
               ("gpt_groundedness", Metric (PInt 4) 0 (PInt 0))]
              ratings_5_3_4 = Return s
    /\ map fst (graded s) = gpt_metrics
    /\ forall name m,
         In (name, m) (graded s) ->
         pass_count m = count_passing name ratings_5_3_4
         /\ pass_rate m
            = PFloat (float_round2
                        (quotient64 (pass_count m) (Z.of_nat (List.length ratings_5_3_4)))).
Proof.
  apply (proj1 aggregate_pass_rate (mock_env (Raise TypeError) 0 [] no_grading)
           (PDict [("mean_gpt_coherence", PInt 4); ("mean_gpt_relevance", PInt 4);
                   ("mean_gpt_groundedness", PInt 4)])).
  - discriminate.
  - reflexivity.
  - reflexivity.
Defined.

(** C9: on an empty sequence of rated records the aggregation raises
    [ZeroDivisionError], whatever the entries of the metrics are; and when
    the artifact of the grading call is an empty file, the run ends with
    that error right after reading it, before any report is written. *)
Theorem aggregate_empty :
  (forall (E : Env) (m0 : list (string * metric)),
      aggregate E m0 [] = Raise ZeroDivisionError)
  /\ (forall (E : Env) (openai_config : pyval) (testdata_path results_dir : string)
             (target_url target_parameters : pyval) (num_questions : option Z)
             (testdata : list pyval) (w w1 : world) (results : eval_results)
             (k : string) (m0 : list (string * metric)),
        evaluate E (wrap_target E target_url target_parameters) testdata openai_config
                 results_dir (grading w testdata results_dir) = (Return results, w1) ->
        first_key (artifacts results) = Return k ->
        fs w1 (path_join results_dir k) = Some "" ->
        init_metrics (metrics_summary results) gpt_metrics = Return m0 ->
        grade_and_report E openai_config testdata_path results_dir target_url
                         target_parameters num_questions testdata w
        = (Raise ZeroDivisionError, opened w1 (path_join results_dir k))).
Proof.
  split.
  - intros E m0. reflexivity.
  - intros E oc tp rd url params nq data w w1 results k m0 Heval Hkey Hfile Hinit.
    unfold grade_and_report, grading, opened, open_read, file_open, file_read,
      read_text, bind, log, lift, ret in *.
    rewrite Heval, Hkey. repeat (cbn [fs trace]; rewrite ?Hfile).
    cbn [universal_newlines readlines readlines_from map_outcome].
    rewrite Hinit. reflexivity.
Qed.

Lemma aggregate_empty_witness :
  grade_and_report (mock_env (Raise TypeError) 0 [] graded_nothing)
    (PDict [("model", PStr "gpt-4")]) "qa.jsonl" "results" (PStr "http://target/chat")
    (PDict []) None [] empty_artifact_world
  = (Raise ZeroDivisionError,
     opened (grading empty_artifact_world [] "results") "results/eval_results.jsonl").
Proof.
  apply (proj2 aggregate_empty (mock_env (Raise TypeError) 0 [] graded_nothing)
           (PDict [("model", PStr "gpt-4")]) "qa.jsonl" "results" (PStr "http://target/chat")
           (PDict []) None [] empty_artifact_world
           (grading empty_artifact_world [] "results")
           (EvalResults mean_ratings [("eval_results.jsonl", PNone)])
           "eval_results.jsonl"
           [("gpt_coherence",
             Metric (PFloat (float_round2 (S754_finite false 4503599627370496 (-50))))
                    0 (PInt 0));
            ("gpt_relevance", Metric (PInt 4) 0 (PInt 0));
            ("gpt_groundedness", Metric (PInt 4) 0 (PInt 0))]); reflexivity.
Defined.

(** ** The question cap *)

(** C10: a cap of 0, like an absent cap, leaves the dataset whole, and the
    run with the cap 0 is the run that grades every loaded record; a
    positive cap [n] keeps the first [n] records; a negative cap is not a
    cut to the first records of that number: it drops the last [-n]. *)
Theorem limit_questions_zero :
  (forall testdata : list pyval,
      limit_questions testdata (Some 0) = testdata
      /\ limit_questions testdata None = testdata)
  /\ (forall (E : Env) (openai_config : pyval) (testdata_path results_dir : string)
             (target_url target_parameters : pyval) (w : world),
        run_evaluation E openai_config testdata_path results_dir target_url
                       target_parameters (Some 0) w
        = (testdata <- load_jsonl E testdata_path ;;
           healthy <- health_check E target_url target_parameters ;;
           if healthy then
             grade_and_report E openai_config testdata_path results_dir target_url
                              target_parameters (Some 0) testdata
           else ret false) w)
  /\ (forall (testdata : list pyval) (n : Z),
        0 < n -> limit_questions testdata (Some n) = firstn (Z.to_nat n) testdata)
  /\ (forall (testdata : list pyval) (n : Z),
        n < 0 ->
        limit_questions testdata (Some n)
        = firstn (List.length testdata - Z.to_nat (- n)) testdata).
Proof.
  split; [|split; [|split]].
  - intros testdata. split; reflexivity.
  - intros. reflexivity.
  - intros testdata n Hn. unfold limit_questions, slice_to.
    destruct (Z.eqb_spec n 0); [lia|]. destruct (Z.leb_spec 0 n); [reflexivity | lia].
  - intros testdata n Hn. unfold limit_questions, slice_to.
    destruct (Z.eqb_spec n 0); [lia|]. destruct (Z.leb_spec 0 n); [lia|].
    f_equal. lia.
Qed.

(** Three records capped at 2: the first two. *)
Lemma limit_questions_zero_witness :
  limit_questions three_records (Some 2) = [PStr "r1"; PStr "r2"].
Proof.
  apply (proj1 (proj2 (proj2 limit_questions_zero)) three_records 2). lia.
Defined.

(** ** Strings: substitution of a marker *)

Lemma prefix_cons (a b : ascii) (s t : string) :
  prefix (String a s) (String b t) = Ascii.eqb a b && prefix s t.
Proof.
  simpl. destruct (ascii_dec a b) as [->|Hab].
  - rewrite Ascii.eqb_refl. reflexivity.
  - apply Ascii.eqb_neq in Hab. rewrite Hab. reflexivity.
Qed.

Lemma all_chars_mem (P : ascii -> bool) (s : string) (c : ascii) :
  all_chars P s = true -> P c = false -> mem_char c s = false.
Proof.
  induction s as [|a s IH]; simpl; intros Hall Hc; [reflexivity|].
  apply andb_prop in Hall as [Ha Hs]. rewrite (IH Hs Hc), orb_false_r.
  destruct (Ascii.eqb_spec c a) as [->|]; [congruence | reflexivity].
Qed.

Lemma mem_char_all (P : ascii -> bool) (s : string) (c : ascii) :
  all_chars (fun a => negb (P a)) s = true -> P c = true -> mem_char c s = false.
Proof.
  induction s as [|a s IH]; simpl; intros Hall Hc; [reflexivity|].
  apply andb_prop in Hall as [Ha Hs]. rewrite (IH Hs Hc), orb_false_r.
  destruct (Ascii.eqb_spec c a) as [->|]; [|reflexivity].
  rewrite Hc in Ha. discriminate.
Qed.

Section Substitution.
Variables (old new : string).

(** An occurrence of a pattern cannot begin inside the inserted text when
    that text does not have the first character of the pattern. *)
Lemma contains_skip_inserted (x : ascii) (pat' ins rest : string) :
  mem_char x ins = false ->
  contains (String x pat') (ins ++ rest) = true ->
  contains (String x pat') rest = true.
Proof.
  induction ins as [|a ins IH]; intros Hx H; [exact H|].
  simpl in Hx. apply orb_false_elim in Hx as [Hxa Hins].
  cbn [append contains] in H. rewrite prefix_cons, Hxa in H.
  cbn [andb orb] in H. exact (IH Hins H).
Qed.

(** Text made of characters that the inserted text does not begin with
    is copied as it stands. *)
Lemma prefix_of_replaced (d : ascii) (new' : string) :
  new = String d new' ->
  forall pat t : string,
    mem_char d pat = false ->
    prefix pat (replace_from 0 old new t) = true ->
    prefix pat t = true.
Proof.
  intros Hnew. induction pat as [|c pat IH]; intros t Hd H; [destruct t; reflexivity|].
  simpl in Hd. apply orb_false_elim in Hd as [Hdc Hpat].
  destruct t as [|a t]; [discriminate H|].
  cbn [replace_from] in H. destruct (prefix old (String a t)).
  - rewrite Hnew in H. cbn [append] in H. rewrite prefix_cons in H.
    rewrite Ascii.eqb_sym, Hdc in H. discriminate H.
  - rewrite prefix_cons in H |- *. apply andb_prop in H as [Hca H].
    rewrite Hca, (IH t Hpat H). reflexivity.
Qed.

(** An occurrence of a pattern in the result of the substitution comes
    from an occurrence in the original text at a place that was not
    replaced. *)
Lemma contains_replaced (x d : ascii) (pat' new' : string) :
  new = String d new' ->
  mem_char x new = false ->
  mem_char d pat' = false ->
  forall (s : string) (skip : nat),
    contains (String x pat') (replace_from skip old new s) = true ->
    unmatched (String x pat') old s = true.
Proof.
  intros Hnew Hx Hd. induction s as [|c s IH]; intros skip H; [discriminate H|].
  cbn [unmatched]. destruct skip as [|k].
  - cbn [replace_from] in H. destruct (prefix old (String c s)) eqn:Hold.
    + apply contains_skip_inserted in H; [|exact Hx].
      rewrite (IH _ H). apply orb_true_r.
    + cbn [contains] in H. apply orb_prop in H as [H | H].
      * rewrite prefix_cons in H. apply andb_prop in H as [Hxc H].
        apply (prefix_of_replaced d new' Hnew) in H; [|exact Hd].
        rewrite prefix_cons, Hxc, H. reflexivity.
      * rewrite (IH _ H). apply orb_true_r.
  - cbn [replace_from] in H. rewrite (IH _ H). apply orb_true_r.
Qed.
End Substitution.

Lemma unmatched_self (old s : string) : unmatched old old s = false.
Proof.
  induction s as [|c s IH]; cbn [unmatched].
  - destruct (prefix old ""); reflexivity.
  - rewrite IH. destruct (prefix old (String c s)); reflexivity.
Qed.

Lemma unmatched_contains (pat old s : string) :
  unmatched pat old s = true -> contains pat s = true.
Proof.
  induction s as [|c s IH]; cbn [unmatched contains]; intros H.
  - apply orb_prop in H as [H | H]; [|discriminate H].
    apply andb_prop in H as [-> _]. reflexivity.
  - apply orb_prop in H as [H | H].
    + apply andb_prop in H as [-> _]. reflexivity.
    + rewrite (IH H). apply orb_true_r.
Qed.

(** The decimal numeral of an integer is not empty and is made of digits
    and the minus sign. *)
Lemma uint_numeral (u : Decimal.uint) :
  all_chars numeral_char (NilEmpty.string_of_uint u) = true.
Proof.
  induction u; simpl; try rewrite IHu; reflexivity.
Qed.

Lemma str_int_numeral (n : Z) :
  exists d rest, str_int n = String d rest
                 /\ all_chars numeral_char (str_int n) = true.
Proof.
  unfold str_int, NilZero.string_of_int.
  destruct (Z.to_int n) as [u | u].
  - destruct u; simpl; try (eexists; eexists; split; [reflexivity|]);
      try reflexivity; apply uint_numeral.
  - eexists; eexists; split; [reflexivity|].
    cbn [all_chars]. unfold NilZero.string_of_uint.
    destruct u; try reflexivity; apply (uint_numeral (_ u)) || apply uint_numeral.
Qed.

Lemma replace_timestamp_free (n : Z) (s : string) :
  contains TIMESTAMP (replace TIMESTAMP (str_int n) s) = false.
Proof.
  destruct (str_int_numeral n) as (d & rest & Hnew & Hall).
  destruct (contains TIMESTAMP (replace TIMESTAMP (str_int n) s)) eqn:H; [|reflexivity].
  apply (contains_replaced TIMESTAMP (str_int n) "<" d "TIMESTAMP>" rest Hnew) in H.
  - rewrite unmatched_self in H. discriminate H.
  - apply (all_chars_mem numeral_char); [exact Hall | reflexivity].
  - apply (mem_char_all numeral_char); [reflexivity|].
    rewrite Hnew in Hall. simpl in Hall. apply andb_prop in Hall as [Hd _]. exact Hd.
Qed.

Lemma replace_timestamp_readfile (n : Z) (s : string) :
  contains READFILE s = false ->
  contains READFILE (replace TIMESTAMP (str_int n) s) = false.
Proof.
  intros Hs. destruct (str_int_numeral n) as (d & rest & Hnew & Hall).
  destruct (contains READFILE (replace TIMESTAMP (str_int n) s)) eqn:H; [|reflexivity].
  apply (contains_replaced TIMESTAMP (str_int n) "<" d "READFILE>" rest Hnew) in H.
  - apply unmatched_contains in H. change (contains READFILE s = true) in H. congruence.
  - apply (all_chars_mem numeral_char); [exact Hall | reflexivity].
  - apply (mem_char_all numeral_char); [reflexivity|].
    rewrite Hnew in Hall. simpl in Hall. apply andb_prop in Hall as [Hd _]. exact Hd.
Qed.

(** ** The config materializer *)

Lemma pyval_nested_ind (P : pyval -> Prop) :
  P PNone -> (forall b, P (PBool b)) -> (forall z, P (PInt z)) ->
  (forall f, P (PFloat f)) -> (forall s, P (PStr s)) ->
  (forall l, Forall P l -> P (PList l)) ->
  (forall d, Forall (fun kv => P (snd kv)) d -> P (PDict d)) ->
  forall v, P v.
Proof.
  intros HN HB HI HF HS HL HD. fix IH 1.
  intros [| b | z | f | s | l | d];
    [exact HN | apply HB | apply HI | apply HF | apply HS | |].
  - apply HL. revert l. fix IHl 1. intros [|x l]; constructor; [apply IH | apply IHl].
  - apply HD. revert d. fix IHd 1. intros [|[k x] d]; constructor; [apply IH | apply IHd].
Qed.

Lemma process_config_dict (E : Env) (items : list (string * pyval)) :
  process_config E (PDict items)
  = (items' <- process_items E items ;; ret (PDict items')).
Proof. reflexivity. Qed.

Lemma read_text_some (w : world) (path text : string) :
  read_text w path = Some text ->
  exists raw, fs w path = Some raw /\ text = universal_newlines raw.
Proof.
  unfold read_text. destruct (fs w path) as [raw|]; [|discriminate].
  intros [= <-]. exists raw. split; reflexivity.
Qed.

Lemma read_text_none (w : world) (path : string) :
  read_text w path = None <-> fs w path = None.
Proof.
  unfold read_text. destruct (fs w path); split; intros H; try discriminate; reflexivity.
Qed.

Lemma open_read_some (path text : string) (w : world) :
  read_text w path = Some text -> open_read path w = (Return text, opened w path).
Proof.
  intros H. destruct (read_text_some w path text H) as (raw & Hraw & ->).
  unfold open_read, file_open, file_read, read_text, bind, log, opened.
  cbn [fs]. rewrite Hraw. cbn [fs]. rewrite Hraw. reflexivity.
Qed.

Lemma open_read_none (path : string) (w : world) :
  fs w path = None ->
  open_read path w = (Raise (FileNotFoundError path), opened w path).
Proof.
  intros H. unfold open_read, file_open, file_read, read_text, bind, log, opened.
  cbn [fs]. rewrite H. reflexivity.
Qed.

Lemma process_str_timestamp (E : Env) (s : string) (w : world) :
  contains TIMESTAMP s = true ->
  process_str E s w
  = (Return (PStr (replace TIMESTAMP (str_int (time_time E w)) s)), timed w).
Proof. intros H. unfold process_str. rewrite H. reflexivity. Qed.

Lemma process_str_readfile (E : Env) (s : string) (w : world) :
  contains TIMESTAMP s = false ->
  contains READFILE s = true ->
  process_str E s w
  = (match read_text w (replace READFILE "" s) with
     | Some text => Return (PStr text)
     | None => Raise (FileNotFoundError (replace READFILE "" s))
     end, opened w (replace READFILE "" s)).
Proof.
  intros HT HR. unfold process_str. rewrite HT, HR. unfold bind.
  destruct (read_text w (replace READFILE "" s)) as [text|] eqn:Hf.
  - rewrite (open_read_some _ _ _ Hf). reflexivity.
  - apply read_text_none in Hf. rewrite (open_read_none _ _ Hf). reflexivity.
Qed.

Lemma process_str_plain (E : Env) (s : string) (w : world) :
  contains TIMESTAMP s = false ->
  contains READFILE s = false ->
  process_str E s w = (Return (PStr s), w).
Proof. intros HT HR. unfold process_str. rewrite HT, HR. reflexivity. Qed.

Lemma process_str_fs (E : Env) (s : string) (w w' : world) (r : outcome pyval) :
  process_str E s w = (r, w') -> fs w' = fs w.
Proof.
  destruct (contains TIMESTAMP s) eqn:HT.
  - rewrite (process_str_timestamp E s w HT). intros H. inversion H. reflexivity.
  - destruct (contains READFILE s) eqn:HR.
    + rewrite (process_str_readfile E s w HT HR). intros H. inversion H. reflexivity.
    + rewrite (process_str_plain E s w HT HR). intros H. inversion H. reflexivity.
Qed.

(** The materializer reads files and the clock; it writes no file. *)
Lemma process_value_fs (E : Env) (v : pyval) :
  forall (w w' : world) (r : outcome pyval),
    process_value E v w = (r, w') -> fs w' = fs w.
Proof.
  induction v as [| | | | s | l _ | d IH] using pyval_nested_ind; intros w w' r H;
    try (inversion H; reflexivity).
  - exact (process_str_fs E s w w' r H).
  - cbn [process_value] in H. rewrite process_config_dict in H.
    assert (Hitems : forall w w' r, process_items E d w = (r, w') -> fs w' = fs w).
    { clear H w w' r. induction d as [|[k x] d IHd]; intros w w' r H.
      - inversion H. reflexivity.
      - inversion IH as [|? ? Hx Hd]; subst. cbn [process_items] in H. unfold bind in H.
        destruct (process_value E x w) as [[x'|e] w1] eqn:Hx1.
        + apply Hx in Hx1. destruct (process_items E d w1) as [[d'|e] w2] eqn:Hd1.
          * apply (IHd Hd) in Hd1. inversion H; subst. congruence.
          * apply (IHd Hd) in Hd1. inversion H; subst. congruence.
        + apply Hx in Hx1. inversion H; subst. exact Hx1. }
    unfold bind in H. destruct (process_items E d w) as [[d'|e] w1] eqn:Hd1.
    + apply Hitems in Hd1. inversion H; subst. exact Hd1.
    + apply Hitems in Hd1. inversion H; subst. exact Hd1.
Qed.

Lemma process_items_cons_inv (E : Env) (k : string) (x : pyval)
    (d l' : list (string * pyval)) (w w' : world) :
  process_items E ((k, x) :: d) w = (Return l', w') ->
  exists x' d' w1,
    process_value E x w = (Return x', w1)
    /\ process_items E d w1 = (Return d', w')
    /\ l' = (k, x') :: d'.
Proof.
  cbn [process_items]. unfold bind, ret.
  destruct (process_value E x w) as [[x'|e] w1]; [|discriminate].
  fold (process_items E).
  destruct (process_items E d w1) as [[d'|e] w2] eqn:Hd; [|discriminate].
  intros H. inversion H; subst. exists x', d', w1. repeat split. exact Hd.
Qed.

Lemma process_config_dict_inv (E : Env) (d : list (string * pyval)) (v' : pyval)
    (w w' : world) :
  process_config E (PDict d) w = (Return v', w') ->
  exists d', process_items E d w = (Return d', w') /\ v' = PDict d'.
Proof.
  rewrite process_config_dict. unfold bind, ret.
  destruct (process_items E d w) as [[d'|e] w1]; [|discriminate].
  intros H. inversion H; subst. exists d'. split; reflexivity.
Qed.

Lemma all_strings_dict_cons (P : string -> bool) (k : string) (x : pyval)
    (d : list (string * pyval)) :
  all_strings P (PDict ((k, x) :: d)) = all_strings P x && all_strings P (PDict d).
Proof. reflexivity. Qed.

Lemma config_value_dict_cons (k : string) (x : pyval) (d : list (string * pyval)) :
  config_value (PDict ((k, x) :: d)) = config_value x && config_value (PDict d).
Proof. reflexivity. Qed.

Lemma process_str_marker_free (E : Env) (s : string) (w w' : world) (v' : pyval) :
  not_both s = true ->
  substituted_free (fs w) s = true ->
  process_str E s w = (Return v', w') ->
  all_strings marker_free v' = true.
Proof.
  unfold not_both, substituted_free. intros Hboth Hfile.
  destruct (contains TIMESTAMP s) eqn:HT.
  - rewrite (process_str_timestamp E s w HT). intros H. inversion H; subst.
    destruct (contains READFILE s) eqn:HR; [discriminate Hboth|].
    cbn [all_strings]. unfold marker_free.
    rewrite replace_timestamp_free, (replace_timestamp_readfile _ _ HR). reflexivity.
  - destruct (contains READFILE s) eqn:HR.
    + rewrite (process_str_readfile E s w HT HR). unfold read_text.
      destruct (fs w (replace READFILE "" s)) as [text|]; intros H; inversion H; subst.
      exact Hfile.
    + rewrite (process_str_plain E s w HT HR). intros H. inversion H; subst.
      cbn [all_strings]. unfold marker_free. rewrite HT, HR. reflexivity.
Qed.

Lemma process_value_marker_free (E : Env) (v : pyval) :
  forall (w w' : world) (v' : pyval),
    config_value v = true ->
    all_strings not_both v = true ->
    all_strings (substituted_free (fs w)) v = true ->
    process_value E v w = (Return v', w') ->
    all_strings marker_free v' = true.
Proof.
  induction v as [| | | | s | l _ | d IH] using pyval_nested_ind;
    intros w w' v' Hshape Hboth Hfiles H; try discriminate Hshape.
  - exact (process_str_marker_free E s w w' v' Hboth Hfiles H).
  - cbn [process_value] in H. apply process_config_dict_inv in H as (d' & H & ->).
    revert w d' Hshape Hboth Hfiles H.
    induction d as [|[k x] d IHd]; intros w d' Hshape Hboth Hfiles H.
    + inversion H; subst. reflexivity.
    + inversion IH as [|? ? Hx Hd]; subst.
      rewrite config_value_dict_cons in Hshape. rewrite all_strings_dict_cons in Hboth, Hfiles.
      apply andb_prop in Hshape as [Sx Sd]. apply andb_prop in Hboth as [Bx Bd].
      apply andb_prop in Hfiles as [Fx Fd].
      apply process_items_cons_inv in H as (x' & dd & w1 & H1 & H2 & ->).
      rewrite all_strings_dict_cons.
      rewrite (Hx w w1 x' Sx Bx Fx H1). cbn [andb].
      apply (IHd Hd w1); try assumption.
      rewrite (process_value_fs E x w w1 _ H1). exact Fd.
Qed.

(** C5: when the configuration is a mapping whose values are strings or
    such mappings, no string value has both markers, and the contents of
    the files substituted for [<READFILE>] values are free of markers,
    then after [process_config] has run no string value of the
    configuration contains [<TIMESTAMP>] or [<READFILE>]. *)
Theorem process_config_marker_free
    (E : Env) (obj obj' : pyval) (w w' : world) :
  config_mapping obj = true ->
  all_strings not_both obj = true ->
  all_strings (substituted_free (fs w)) obj = true ->
  process_config E obj w = (Return obj', w') ->
  all_strings marker_free obj' = true.
Proof.
  intros Hshape Hboth Hfiles H.
  destruct obj as [| | | | | |d]; try discriminate Hshape.
  exact (process_value_marker_free E (PDict d) w w' obj' Hshape Hboth Hfiles H).
Qed.

Lemma process_config_marker_free_witness :
  all_strings marker_free
    (PDict [("testdata_path", PStr "qa.jsonl");
            ("results_dir", PStr "results/run1700000000");
            ("target_url", PStr "http://target/chat");
            ("target_parameters",
             PDict [("overrides",
                     PDict [("prompt_template", PStr "Answer briefly.")])])])
  = true.
Proof.
  apply (process_config_marker_free (mock_env (Raise TypeError) 1700000000 [] no_grading)
           sample_config _ sample_world
           (opened (timed sample_world) "prompt.txt")); reflexivity.
Defined.

(** The value of a key after the loop is the processed value of that key
    before it, and the files are those of the start. *)
Lemma process_items_get (E : Env) (key : string) (d : list (string * pyval)) :
  forall (w w' : world) (d' : list (string * pyval)) (x : pyval),
    process_items E d w = (Return d', w') ->
    dict_get d key = Some x ->
    exists x' wa wb,
      dict_get d' key = Some x'
      /\ process_value E x wa = (Return x', wb)
      /\ fs wa = fs w.
Proof.
  induction d as [|[k y] d IH]; intros w w' d' x H Hget; [discriminate Hget|].
  apply process_items_cons_inv in H as (y' & dd & w1 & H1 & H2 & ->).
  cbn [dict_get] in Hget |- *. destruct (String.eqb k key).
  - injection Hget as ->. exists y', w, w1. repeat split. exact H1.
  - destruct (IH w1 w' dd x H2 Hget) as (x' & wa & wb & G & P & F).
    exists x', wa, wb. repeat split; try assumption.
    rewrite F. exact (process_value_fs E y w w1 _ H1).
Qed.

Lemma process_at_path (E : Env) (path : list string) :
  forall (x x' y : pyval) (w w' : world),
    value_at path x = Some y ->
    process_value E x w = (Return x', w') ->
    exists y' wa wb,
      value_at path x' = Some y'
      /\ process_value E y wa = (Return y', wb)
      /\ fs wa = fs w.
Proof.
  induction path as [|key rest IH]; intros x x' y w w' Hat H.
  - injection Hat as <-. exists x', w, w'. repeat split. exact H.
  - destruct x as [| | | | | |d]; try discriminate Hat.
    cbn [value_at] in Hat. destruct (dict_get d key) as [z|] eqn:Hget; [|discriminate Hat].
    cbn [process_value] in H. apply process_config_dict_inv in H as (d' & H & ->).
    destruct (process_items_get E key d w w' d' z H Hget) as (z' & wa & wb & G & P & F).
    destruct (IH z z' y wa wb Hat P) as (y' & wa' & wb' & G' & P' & F').
    exists y', wa', wb'. repeat split; try assumption.
    + cbn [value_at]. rewrite G. exact G'.
    + congruence.
Qed.

(** The only error of the materializer is a missing file. *)
Lemma process_value_raises (E : Env) (v : pyval) :
  forall (w w' : world) (e : exn),
    process_value E v w = (Raise e, w') -> exists p, e = FileNotFoundError p.
Proof.
  induction v as [| | | | s | l _ | d IH] using pyval_nested_ind; intros w w' e H;
    try discriminate H.
  - cbn [process_value] in H. destruct (contains TIMESTAMP s) eqn:HT.
    + rewrite (process_str_timestamp E s w HT) in H. discriminate H.
    + destruct (contains READFILE s) eqn:HR.
      * rewrite (process_str_readfile E s w HT HR) in H.
        destruct (read_text w (replace READFILE "" s)); inversion H. eexists. reflexivity.
      * rewrite (process_str_plain E s w HT HR) in H. discriminate H.
  - cbn [process_value] in H. rewrite process_config_dict in H. unfold bind in H.
    destruct (process_items E d w) as [[d'|e'] w1] eqn:Hd; [discriminate H|].
    inversion H; subst. clear H. revert w Hd.
    induction d as [|[k x] d IHd]; intros w Hd; [discriminate Hd|].
    inversion IH as [|? ? Hx Hrest]; subst.
    cbn [process_items] in Hd. unfold bind in Hd. fold (process_items E) in Hd.
    destruct (process_value E x w) as [[x'|ex] w2] eqn:Hx1.
    + destruct (process_items E d w2) as [[dd|ed] w3] eqn:Hd2; [discriminate Hd|].
      inversion Hd; subst. exact (IHd Hrest w2 Hd2).
    + inversion Hd; subst. exact (Hx w w' e Hx1).
Qed.

(** C6, as the code has it: a string value that contains [<READFILE>] and
    not [<TIMESTAMP>] is replaced as a whole by the text of the file whose
    path is the value without the marker, as a read in text mode gives it:
    the contents of the file with a carriage return and line feed, and a
    carriage return alone, turned into a line feed. When there is no such
    file, [process_config] raises [FileNotFoundError], and
    [run_evaluate_from_config] lets the error of [process_config] through. *)
Theorem process_config_readfile
    (E : Env) (obj : pyval) (key : string) (path : list string) (v : string) (w : world) :
  value_at (key :: path) obj = Some (PStr v) ->
  contains TIMESTAMP v = false ->
  contains READFILE v = true ->
  (forall obj' w',
      process_config E obj w = (Return obj', w') ->
      exists contents,
        fs w (replace READFILE "" v) = Some contents
        /\ value_at (key :: path) obj' = Some (PStr (universal_newlines contents)))
  /\ (fs w (replace READFILE "" v) = None ->
      exists p w', process_config E obj w = (Raise (FileNotFoundError p), w'))
  /\ (forall (working_dir config_path text : string) (num_questions : option Z)
             (w0 w' : world) (e : exn),
        read_text w0 (path_join working_dir config_path) = Some text ->
        json_loads E text = Return obj ->
        process_config E obj (opened w0 (path_join working_dir config_path)) = (Raise e, w') ->
        run_evaluate_from_config E working_dir config_path num_questions w0 = (Raise e, w')).
Proof.
  intros Hat HT HR.
  assert (Hdict : process_config E obj = process_value E obj).
  { destruct obj; try discriminate Hat. reflexivity. }
  assert (Hret : forall obj' w',
             process_config E obj w = (Return obj', w') ->
             exists contents,
               fs w (replace READFILE "" v) = Some contents
               /\ value_at (key :: path) obj'
                  = Some (PStr (universal_newlines contents))).
  { intros obj' w' H. rewrite Hdict in H.
    destruct (process_at_path E (key :: path) obj obj' (PStr v) w w' Hat H)
      as (y' & wa & wb & G & P & F).
    cbn [process_value] in P. rewrite (process_str_readfile E v wa HT HR) in P.
    unfold read_text in P. rewrite F in P.
    destruct (fs w (replace READFILE "" v)) as [contents|]; inversion P; subst.
    exists contents. split; [reflexivity | exact G]. }
  split; [exact Hret | split].
  - intros Hmissing. destruct (process_config E obj w) as [[obj'|e] w'] eqn:H.
    + destruct (Hret obj' w' eq_refl) as (text & Hsome & _). congruence.
    + rewrite Hdict in H. destruct (process_value_raises E obj w w' e H) as [p ->].
      exists p, w'. reflexivity.
  - intros wd cp text nq w0 w' e Hfile Hjson H.
    unfold run_evaluate_from_config, bind, lift.
    rewrite (open_read_some _ _ _ Hfile), Hjson, H. reflexivity.
Qed.

Lemma process_config_readfile_witness :
  exists contents,
    fs crlf_world (replace READFILE "" "<READFILE>prompt.txt") = Some contents
    /\ value_at ["target_parameters"; "overrides"; "prompt_template"]
         (PDict [("testdata_path", PStr "qa.jsonl");
                 ("results_dir", PStr "results/run1700000000");
                 ("target_url", PStr "http://target/chat");
                 ("target_parameters",
                  PDict [("overrides",
                          PDict [("prompt_template",
                                  PStr ("Answer briefly." ++ nl ++ "Cite sources." ++ nl))])])])
       = Some (PStr (universal_newlines contents)).
Proof.
  apply (proj1 (process_config_readfile
                  (mock_env (Raise TypeError) 1700000000 [] no_grading)
                  sample_config "target_parameters" ["overrides"; "prompt_template"]
                  "<READFILE>prompt.txt" crlf_world eq_refl eq_refl eq_refl)
           _ (opened (timed crlf_world) "prompt.txt")).
  reflexivity.
Defined.

(** A prompt file with the line ends of another system: what the code puts
    in the configuration is not the contents of the file character for
    character. *)
Lemma readfile_translates_line_ends :
  fs crlf_world "prompt.txt"
  = Some ("Answer briefly." ++ String carriage_return nl
          ++ "Cite sources." ++ String carriage_return "")
  /\ fst (process_config (mock_env (Raise TypeError) 1700000000 [] no_grading)
            (PDict [("prompt", PStr "<READFILE>prompt.txt")]) crlf_world)
     = Return (PDict [("prompt",
                       PStr ("Answer briefly." ++ nl ++ "Cite sources." ++ nl))]).
Proof. split; reflexivity. Qed.

(** The claim C6 as it is worded fails on a value whose path has the
    timestamp marker in it: the value gets the timestamp and the file,
    though it exists, is not read. *)
Lemma readfile_with_timestamp_not_read :
  ~ (forall (E : Env) (obj obj' : pyval) (key : string) (path : list string)
            (v text : string) (w w' : world),
        value_at (key :: path) obj = Some (PStr v) ->
        prefix READFILE v = true ->
        fs w (replace READFILE "" v) = Some text ->
        process_config E obj w = (Return obj', w') ->
        value_at (key :: path) obj' = Some (PStr text)).
Proof.
  intros claim.
  specialize (claim (mock_env (Raise TypeError) 1700000000 [] no_grading)
                    (PDict [("prompt", PStr stamped_path_value)])
                    (PDict [("prompt", PStr "<READFILE>notes_1700000000.txt")])
                    "prompt" [] stamped_path_value "file text"
                    stamped_path_world (timed stamped_path_world)
                    eq_refl eq_refl eq_refl eq_refl).
  discriminate claim.
Qed.

(** C7: a string value that contains both markers gets the timestamp
    substitution only: every occurrence of [<TIMESTAMP>] is replaced by the
    decimal numeral of the clock, the only effect is the reading of the
    clock (no file is opened), and this holds for the value wherever it
    sits in the configuration. *)
Theorem process_config_timestamp_first (E : Env) (v : string) (w : world) :
  contains TIMESTAMP v = true ->
  contains READFILE v = true ->
  process_str E v w
  = (Return (PStr (replace TIMESTAMP (str_int (time_time E w)) v)), timed w)
  /\ (forall key : string,
        process_config E (PDict [(key, PStr v)]) w
        = (Return (PDict [(key, PStr (replace TIMESTAMP (str_int (time_time E w)) v))]),
           timed w))
  /\ (forall (obj obj' : pyval) (key : string) (path : list string) (w' : world),
        value_at (key :: path) obj = Some (PStr v) ->
        process_config E obj w = (Return obj', w') ->
        exists wa,
          fs wa = fs w
          /\ value_at (key :: path) obj'
             = Some (PStr (replace TIMESTAMP (str_int (time_time E wa)) v))).
Proof.
  intros HT HR. split; [exact (process_str_timestamp E v w HT) | split].
  - intros key. rewrite process_config_dict. cbn [process_items process_value].
    unfold bind. rewrite (process_str_timestamp E v w HT). reflexivity.
  - intros obj obj' key path w' Hat H.
    assert (Hdict : process_config E obj = process_value E obj).
    { destruct obj; try discriminate Hat. reflexivity. }
    rewrite Hdict in H.
    destruct (process_at_path E (key :: path) obj obj' (PStr v) w w' Hat H)
      as (y' & wa & wb & G & P & F).
    cbn [process_value] in P. rewrite (process_str_timestamp E v wa HT) in P.
    inversion P; subst. exists wa. split; [exact F | exact G].
Qed.

Lemma process_config_timestamp_first_witness :
  process_config (mock_env (Raise TypeError) 1700000000 [] no_grading)
    (PDict [("prompt", PStr stamped_path_value)]) stamped_path_world
  = (Return (PDict [("prompt", PStr "<READFILE>notes_1700000000.txt")]),
     timed stamped_path_world).
Proof.
  apply (proj1 (proj2 (process_config_timestamp_first
                         (mock_env (Raise TypeError) 1700000000 [] no_grading)
                         stamped_path_value stamped_path_world eq_refl eq_refl))
           "prompt").
Defined.

(** ** The run orchestrator *)

(** Sending a question has one effect, the request. *)
Lemma send_question_world (E : Env) (q : string) (url params : pyval) (b : bool) (w : world) :
  snd (send_question_to_target E q url params b w) = posted w url q params.
Proof.
  unfold send_question_to_target, posted, try_except, bind, log, lift, raise, ret.
  cbn [fs trace].
  destruct (requests_post E _ url (request_body q params)) as [r|e].
  - destruct (json r) as [v|e].
    + destruct (extract v) as [[a c]|e]; destruct b; reflexivity.
    + destruct b; reflexivity.
  - destruct b; reflexivity.
Qed.

Lemma load_jsonl_run (E : Env) (path : string) (w : world) :
  load_jsonl E path w
  = (match read_text w path with
     | Some text => map_outcome (json_loads E) (readlines text)
     | None => Raise (FileNotFoundError path)
     end, opened w path).
Proof.
  unfold load_jsonl, bind, lift. destruct (read_text w path) as [text|] eqn:Hf.
  - rewrite (open_read_some _ _ _ Hf). reflexivity.
  - rewrite (open_read_none _ _ (proj1 (read_text_none _ _) Hf)). reflexivity.
Qed.

(** A probe that raises ends the run with [False], in the world the probe
    left. *)
Lemma run_evaluation_probe_raises
    (E : Env) (openai_config : pyval) (testdata_path results_dir : string)
    (target_url target_parameters : pyval) (num_questions : option Z)
    (w w1 w2 : world) (testdata : list pyval) (e : exn) :
  load_jsonl E testdata_path w = (Return testdata, w1) ->
  send_question_to_target E probe_question target_url target_parameters true w1
  = (Raise e, w2) ->
  run_evaluation E openai_config testdata_path results_dir target_url target_parameters
                 num_questions w
  = (Return false, w2).
Proof.
  intros Hload Hprobe. unfold run_evaluation, bind. rewrite Hload.
  unfold health_check, try_except, bind. rewrite Hprobe. reflexivity.
Qed.

(** C1, as the code has it: the dataset file is loaded first and the probe
    question is sent after it. When the probe raises, nothing further
    runs: the run returns [False] in the world that the loading and the one
    request left. When the loading fails, the run raises that error and no
    request has been sent. *)
Theorem run_evaluation_probe_after_dataset
    (E : Env) (openai_config : pyval) (testdata_path results_dir : string)
    (target_url target_parameters : pyval) (num_questions : option Z) (w : world) :
  (forall (text : string) (testdata : list pyval) (e : exn),
      read_text w testdata_path = Some text ->
      map_outcome (json_loads E) (readlines text) = Return testdata ->
      fst (send_question_to_target E probe_question target_url target_parameters true
             (opened w testdata_path)) = Raise e ->
      run_evaluation E openai_config testdata_path results_dir target_url target_parameters
                     num_questions w
      = (Return false,
         World (fs w)
               (trace w ++ [EvOpenRead testdata_path;
                            EvPost target_url
                                   (request_body probe_question target_parameters)])))
  /\ (forall (e : exn) (w1 : world),
        load_jsonl E testdata_path w = (Raise e, w1) ->
        run_evaluation E openai_config testdata_path results_dir target_url
                       target_parameters num_questions w
        = (Raise e, World (fs w) (trace w ++ [EvOpenRead testdata_path]))).
Proof.
  split.
  - intros text testdata e Hfile Hdata Hprobe.
    pose proof (send_question_world E probe_question target_url target_parameters true
                  (opened w testdata_path)) as Hworld.
    destruct (send_question_to_target E probe_question target_url target_parameters true
                (opened w testdata_path)) as [r w2] eqn:Hsend.
    cbn [fst snd] in Hprobe, Hworld. subst r w2.
    rewrite (run_evaluation_probe_raises E openai_config testdata_path results_dir
               target_url target_parameters num_questions w (opened w testdata_path)
               (posted (opened w testdata_path) target_url probe_question target_parameters)
               testdata e).
    + unfold posted, opened. cbn [fs trace]. rewrite <- app_assoc. reflexivity.
    + rewrite load_jsonl_run, Hfile, Hdata. reflexivity.
    + exact Hsend.
  - intros e w1 Hload. unfold run_evaluation, bind. rewrite Hload.
    rewrite load_jsonl_run in Hload. inversion Hload; subst. reflexivity.
Qed.

Lemma run_evaluation_probe_after_dataset_witness :
  run_evaluation down_env (PDict [("model", PStr "gpt-4")]) "eval/qa.jsonl" "eval/results"
    (PStr "http://target/chat") (PDict []) None down_world
  = (Return false,
     World (fs down_world)
           (trace down_world
            ++ [EvOpenRead "eval/qa.jsonl";
                EvPost (PStr "http://target/chat") (request_body probe_question (PDict []))])).
Proof.
  apply (proj1 (run_evaluation_probe_after_dataset down_env (PDict [("model", PStr "gpt-4")])
                  "eval/qa.jsonl" "eval/results" (PStr "http://target/chat") (PDict [])
                  None down_world)
           dataset_text [dataset_record] connection_refused); reflexivity.
Defined.

(** The claim C1 as it is worded fails: with a target that is down, the
    dataset file has been opened by the time the probe raises. *)
Lemma dataset_read_before_probe :
  ~ (forall (E : Env) (openai_config : pyval) (testdata_path results_dir : string)
            (target_url target_parameters : pyval) (num_questions : option Z) (w : world),
        (forall w1, exists e,
              fst (send_question_to_target E probe_question target_url target_parameters
                     true w1) = Raise e) ->
        ~ In (EvOpenRead testdata_path)
             (trace (snd (run_evaluation E openai_config testdata_path results_dir
                            target_url target_parameters num_questions w)))).
Proof.
  intros claim.
  apply (claim down_env (PDict [("model", PStr "gpt-4")]) "eval/qa.jsonl" "eval/results"
               (PStr "http://target/chat") (PDict []) None down_world).
  - intros w1. exists connection_refused. reflexivity.
  - left. reflexivity.
Qed.


Lemma set_file_same (path text : string) (f : string -> option string) :
  set_file path text f path = Some text.
Proof. unfold set_file. rewrite String.eqb_refl. reflexivity. Qed.

Lemma set_file_other (path text p : string) (f : string -> option string) :
  p <> path -> set_file path text f p = f p.
Proof.
  intros H. unfold set_file. apply String.eqb_neq in H. rewrite H. reflexivity.
Qed.






(** That run, fact by fact: it returns, its configuration file is as it
    was, and the text written to [config.json] is the text of the
    configuration file with its line end translated. *)
Lemma config_copy_translates_line_ends :
  let w' := snd (run_evaluate_from_config copy_env "eval" "config.json" None copy_world) in
  fst (run_evaluate_from_config copy_env "eval" "config.json" None copy_world) = Return tt
  /\ fs copy_world "eval/config.json" = Some (plain_config_text ++ String carriage_return nl)
  /\ fs w' "eval/config.json" = Some (plain_config_text ++ String carriage_return nl)
  /\ fs w' "eval/results/config.json" = Some (plain_config_text ++ nl).
Proof. cbv zeta. repeat split; vm_compute; reflexivity. Qed.

(** A results directory that is the directory of the configuration file:
    [config.json] of the results is the configuration file, and the run,
    which succeeds, leaves it empty. *)
Lemma config_emptied_by_copy :
  let w' := snd (run_evaluate_from_config same_dir_env "eval" "config.json" None
                   same_dir_world) in
  path_join (path_join "eval" ".") "config.json" = path_join "eval" "config.json"
  /\ fst (run_evaluate_from_config same_dir_env "eval" "config.json" None same_dir_world)
     = Return tt
  /\ fs same_dir_world "eval/config.json" = Some plain_config_text
  /\ fs w' "eval/config.json" = Some "".
Proof. cbv zeta. repeat split; vm_compute; reflexivity. Qed.

(** * Further properties of the pipeline *)

(** ** Strings *)

Lemma append_nil_r (s : string) : s ++ "" = s.
Proof. induction s as [|c s IH]; simpl; [|rewrite IH]; reflexivity. Qed.

Lemma append_assoc (a b c : string) : (a ++ b) ++ c = a ++ b ++ c.
Proof. induction a as [|x a IH]; simpl; [|rewrite IH]; reflexivity. Qed.

Lemma length_append (a b : string) :
  String.length (a ++ b) = (String.length a + String.length b)%nat.
Proof. induction a as [|x a IH]; simpl; [|rewrite IH]; reflexivity. Qed.

Lemma mem_char_append (c : ascii) (a b : string) :
  mem_char c (a ++ b) = mem_char c a || mem_char c b.
Proof.
  induction a as [|x a IH]; simpl; [reflexivity|].
  rewrite IH, orb_assoc. reflexivity.
Qed.

Lemma join_empty_cons (s : string) (l : list string) : join "" (s :: l) = s ++ join "" l.
Proof.
  destruct l as [|t l]; cbn [join]; [rewrite append_nil_r|]; reflexivity.
Qed.

(** ** Reading lines *)

Lemma readlines_from_text (s : string) :
  forall cur : string, join "" (readlines_from cur s) = cur ++ s.
Proof.
  induction s as [|c s IH]; intros cur; cbn [readlines_from].
  - rewrite append_nil_r. destruct cur; reflexivity.
  - destruct (Ascii.eqb c newline).
    + rewrite join_empty_cons, IH, append_assoc. reflexivity.
    + rewrite IH, append_assoc. reflexivity.
Qed.

Lemma readlines_from_shape (s : string) :
  forall cur : string,
    mem_char newline cur = false -> Forall line_shape (readlines_from cur s).
Proof.
  induction s as [|c s IH]; intros cur Hcur; cbn [readlines_from].
  - destruct cur as [|a cur]; constructor; [|constructor].
    split; [discriminate|]. exists (String a cur). split; [exact Hcur | right; reflexivity].
  - destruct (Ascii.eqb_spec c newline) as [->|Hc].
    + constructor; [|apply IH; reflexivity].
      split; [destruct cur; discriminate|].
      exists cur. split; [exact Hcur | left; reflexivity].
    + apply IH. rewrite mem_char_append, Hcur. cbn [mem_char orb].
      rewrite orb_false_r. apply Ascii.eqb_neq. congruence.
Qed.

(** X1: the lines that [readlines] cuts a text into, put end to end, are
    the text; no line is empty, and a line has a line end at its end or
    nowhere. *)
Theorem readlines_round_trip (s : string) :
  join "" (readlines s) = s /\ Forall line_shape (readlines s).
Proof.
  split.
  - exact (readlines_from_text s "").
  - exact (readlines_from_shape s "" eq_refl).
Qed.

Lemma readlines_from_line (l rest : string) :
  mem_char newline l = false ->
  forall cur : string,
    readlines_from cur (terminated l ++ rest)
    = (cur ++ terminated l) :: readlines_from "" rest.
Proof.
  unfold terminated. induction l as [|c l IH]; intros Hl cur.
  - reflexivity.
  - cbn [mem_char] in Hl. apply orb_false_elim in Hl as [Hc Hl].
    cbn [append readlines_from]. rewrite Ascii.eqb_sym, Hc.
    rewrite (IH Hl), append_assoc. reflexivity.
Qed.

Lemma readlines_terminated (ls : list string) :
  Forall (fun l => mem_char newline l = false) ls ->
  readlines (join "" (map terminated ls)) = map terminated ls.
Proof.
  unfold readlines. induction 1 as [|l ls Hl _ IH]; [reflexivity|].
  cbn [map]. rewrite join_empty_cons, (readlines_from_line l _ Hl ""), IH. reflexivity.
Qed.

Lemma map_outcome_returns {A B} (f : A -> outcome B) (l : list A) (vs : list B) :
  map_outcome f l = Return vs <-> Forall2 (fun x v => f x = Return v) l vs.
Proof.
  revert vs. induction l as [|x l IH]; intros vs; cbn [map_outcome]; split.
  - intros [= <-]. constructor.
  - intros H. inversion H. reflexivity.
  - destruct (f x) as [y|e] eqn:Hx; [|discriminate]. cbn [obind].
    destruct (map_outcome f l) as [ys|e] eqn:Hl; [|discriminate]. cbn [obind].
    intros [= <-]. constructor; [exact Hx | apply IH; reflexivity].
  - intros H. inversion H as [|? y ? ys Hx Hrest]; subst.
    rewrite Hx. cbn [obind]. apply IH in Hrest. rewrite Hrest. reflexivity.
Qed.

Lemma map_outcome_first_error {A B} (f : A -> outcome B) (good rest : list A)
    (bad : A) (e : exn) :
  Forall (fun x => exists v, f x = Return v) good ->
  f bad = Raise e ->
  map_outcome f (good ++ bad :: rest) = Raise e.
Proof.
  intros Hgood Hbad. induction Hgood as [|x good [v Hx] _ IH]; cbn [app map_outcome].
  - rewrite Hbad. reflexivity.
  - rewrite Hx, IH. reflexivity.
Qed.

Lemma Forall2_mapped {A B C} (g : A -> B) (P : B -> C -> Prop) (l : list A) (vs : list C) :
  Forall2 P (map g l) vs <-> Forall2 (fun x v => P (g x) v) l vs.
Proof.
  revert vs. induction l as [|x l IH]; intros vs; cbn [map]; split; intros H;
    inversion H; subst; constructor; try assumption; apply IH; assumption.
Qed.

(** X2: a dataset file that reads, in text mode, as lines each with its
    line end loads as one record per line, in the order of the lines: the
    load returns [records] exactly when [records] are the decodings of the
    lines, one by one. *)
Theorem load_jsonl_in_order
    (E : Env) (path : string) (w : world) (ls : list string) (records : list pyval) :
  Forall (fun l => mem_char newline l = false) ls ->
  read_text w path = Some (join "" (map terminated ls)) ->
  load_jsonl E path w = (Return records, opened w path)
  <-> Forall2 (fun l v => json_loads E (terminated l) = Return v) ls records.
Proof.
  intros Hls Hfile. rewrite load_jsonl_run, Hfile, (readlines_terminated ls Hls).
  split.
  - intros H. inversion H as [Hm]. apply map_outcome_returns in Hm.
    apply (Forall2_mapped terminated (fun x v => json_loads E x = Return v)). exact Hm.
  - intros H. f_equal. apply map_outcome_returns.
    apply (Forall2_mapped terminated (fun x v => json_loads E x = Return v)). exact H.
Qed.

Lemma load_jsonl_in_order_witness :
  load_jsonl down_env "eval/qa.jsonl" down_world
  = (Return [dataset_record], opened down_world "eval/qa.jsonl")
  <-> Forall2 (fun l v => json_loads down_env (terminated l) = Return v)
              ["{" ++ quote ++ "question" ++ quote ++ ": " ++ quote ++ "q1" ++ quote ++ "}"]
              [dataset_record].
Proof.
  apply (load_jsonl_in_order down_env "eval/qa.jsonl" down_world
           ["{" ++ quote ++ "question" ++ quote ++ ": " ++ quote ++ "q1" ++ quote ++ "}"]
           [dataset_record]).
  - repeat constructor.
  - reflexivity.
Defined.

(** X3: the first line that does not decode fails the whole load with the
    error of that line, whatever follows it; a missing file fails the load
    with [FileNotFoundError]. In both cases the only effect is the opening
    of the file. *)
Theorem load_jsonl_fails (E : Env) (path : string) (w : world) :
  (forall (good rest : list string) (bad : string) (e : exn),
      Forall (fun l => mem_char newline l = false) (good ++ bad :: rest) ->
      read_text w path = Some (join "" (map terminated (good ++ bad :: rest))) ->
      Forall (fun l => exists v, json_loads E (terminated l) = Return v) good ->
      json_loads E (terminated bad) = Raise e ->
      load_jsonl E path w = (Raise e, opened w path))
  /\ (fs w path = None ->
      load_jsonl E path w = (Raise (FileNotFoundError path), opened w path)).
Proof.
  split.
  - intros good rest bad e Hls Hfile Hgood Hbad.
    rewrite load_jsonl_run, Hfile, (readlines_terminated _ Hls). f_equal.
    rewrite map_app. cbn [map]. apply map_outcome_first_error; [|exact Hbad].
    clear Hls Hfile. induction Hgood as [|l good Hl _ IH]; constructor; assumption.
  - intros Hmissing. rewrite load_jsonl_run, (proj2 (read_text_none w path) Hmissing).
    reflexivity.
Qed.

Lemma load_jsonl_fails_witness :
  load_jsonl down_env "data.jsonl"
    (World (set_file "data.jsonl"
              (join "" (map terminated
                 ["{" ++ quote ++ "question" ++ quote ++ ": " ++ quote ++ "q1" ++ quote ++ "}";
                  "{oops"; "{later"]))
              (fun _ => None)) [])
  = (Raise (LibraryError "JSONDecodeError" (terminated "{oops")),
     opened (World (set_file "data.jsonl"
              (join "" (map terminated
                 ["{" ++ quote ++ "question" ++ quote ++ ": " ++ quote ++ "q1" ++ quote ++ "}";
                  "{oops"; "{later"]))
              (fun _ => None)) []) "data.jsonl").
Proof.
  apply (proj1 (load_jsonl_fails down_env "data.jsonl" _)
           ["{" ++ quote ++ "question" ++ quote ++ ": " ++ quote ++ "q1" ++ quote ++ "}"]
           ["{later"] "{oops").
  - repeat constructor.
  - reflexivity.
  - constructor; [exists dataset_record; reflexivity | constructor].
  - reflexivity.
Defined.

(** ** The citation pattern *)

Lemma has_closing_split (s : string) :
  has_closing s = true ->
  exists mid post, s = mid ++ "]" ++ post /\ mem_char "]" mid = false.
Proof.
  induction s as [|c s IH]; cbn [has_closing]; [discriminate|].
  destruct (Ascii.eqb_spec c "]") as [->|Hc].
  - intros _. exists "", s. split; reflexivity.
  - intros H. destruct (IH H) as (mid & post & -> & Hmid).
    exists (String c mid), post. split; [reflexivity|].
    cbn [mem_char]. rewrite Hmid, orb_false_r. apply Ascii.eqb_neq. congruence.
Qed.

Lemma has_closing_append (mid post : string) :
  has_closing (mid ++ String "]" post) = true.
Proof.
  induction mid as [|c mid IH]; cbn [append has_closing]; [reflexivity|].
  rewrite IH. destruct (Ascii.eqb c "]"); reflexivity.
Qed.

(** X4: [has_citation], the search for the pattern \[[^\]]+\], finds a
    match exactly in the texts that have an opening bracket, then at least
    one character with no closing bracket among them, then a closing
    bracket. *)
Theorem has_citation_cites (s : string) : has_citation s = true <-> cites s.
Proof.
  split.
  - induction s as [|c s IH]; cbn [has_citation]; [discriminate|].
    intros H. apply orb_prop in H as [H | H].
    + destruct (Ascii.eqb_spec c "[") as [->|]; [|discriminate H].
      destruct s as [|c' s']; [discriminate H|].
      destruct (Ascii.eqb_spec c' "]") as [|Hc']; [discriminate H|].
      destruct (has_closing_split s' H) as (mid & post & -> & Hmid).
      exists "", (String c' mid), post. split; [reflexivity | split; [discriminate|]].
      cbn [mem_char]. rewrite Hmid, orb_false_r. apply Ascii.eqb_neq. congruence.
    + destruct (IH H) as (pre & body & post & -> & Hne & Hbody).
      exists (String c pre), body, post. repeat split; assumption.
  - intros (pre & body & post & -> & Hne & Hbody).
    induction pre as [|c pre IH].
    + destruct body as [|c' body]; [congruence|].
      cbn [mem_char] in Hbody. apply orb_false_elim in Hbody as [Hc' Hbody].
      cbn [append has_citation]. rewrite Ascii.eqb_refl.
      rewrite Ascii.eqb_sym in Hc'. rewrite Hc'.
      rewrite (has_closing_append body post). reflexivity.
    + change (String c pre ++ "[" ++ body ++ "]" ++ post)
        with (String c (pre ++ "[" ++ body ++ "]" ++ post)).
      cbn [has_citation]. rewrite IH. apply orb_true_r.
Qed.

(** ** Cutting a text for the log *)

Lemma substring_length (n : nat) :
  forall s : string, (n <= String.length s)%nat -> String.length (substring 0 n s) = n.
Proof.
  induction n as [|n IH]; intros s Hn.
  - destruct s; reflexivity.
  - destruct s as [|c s]; [simpl in Hn; lia|].
    simpl in Hn |- *. rewrite IH by lia. reflexivity.
Qed.

Lemma substring_prefix (n : nat) :
  forall s : string, exists rest, s = substring 0 n s ++ rest.
Proof.
  induction n as [|n IH]; intros s.
  - exists s. destruct s; reflexivity.
  - destruct s as [|c s]; [exists ""; reflexivity|].
    destruct (IH s) as [rest Hrest]. exists rest. simpl. rewrite <- Hrest. reflexivity.
Qed.

(** X5: [truncate_for_log] returns a text shorter than 30 characters as it
    is; any other text becomes its first 30 characters followed by three
    dots, 33 characters in all, so that a text of 30 to 32 characters gets
    longer. It never raises on a text. *)
Theorem truncate_for_log_str (s : string) :
  exists t,
    truncate_for_log (PStr s) = Return (PStr t)
    /\ (String.length s < 30 -> t = s)%nat
    /\ (30 <= String.length s ->
        String.length t = 33
        /\ exists cut rest, String.length cut = 30 /\ s = cut ++ rest /\ t = cut ++ "...")%nat.
Proof.
  unfold truncate_for_log. cbn [py_len obind].
  destruct (Z.ltb_spec (Z.of_nat (String.length s)) 30) as [Hlt | Hge].
  - exists s. split; [reflexivity | split; [reflexivity | lia]].
  - exists (substring 0 30 s ++ "..."). split; [reflexivity | split; [lia|]].
    intros Hlen. destruct (substring_prefix 30 s) as [rest Hrest].
    pose proof (substring_length 30 s Hlen) as Hcut. split.
    + rewrite length_append, Hcut. reflexivity.
    + exists (substring 0 30 s), rest. repeat split; assumption.
Qed.

(** ** The question cap *)



(** ** More on the config materializer *)

Lemma contains_false_cons (pat : string) (c : ascii) (s : string) :
  contains pat (String c s) = false ->
  prefix pat (String c s) = false /\ contains pat s = false.
Proof. cbn [contains]. intros H. apply orb_false_elim in H. exact H. Qed.

Lemma replace_absent (old new s : string) :
  contains old s = false -> replace old new s = s.
Proof.
  unfold replace. induction s as [|c s IH]; intros H; [reflexivity|].
  apply contains_false_cons in H as [Hp Hs].
  cbn [replace_from]. rewrite Hp, (IH Hs). reflexivity.
Qed.

Lemma replace_from_skip (old new p : string) (x : string) :
  replace_from (String.length x) old new (x ++ p) = replace_from 0 old new p.
Proof.
  induction x as [|c x IH]; [reflexivity|]. cbn [String.length append replace_from].
  exact IH.
Qed.

Lemma prefix_append (a p : string) : prefix a (a ++ p) = true.
Proof.
  induction a as [|c a IH]; [destruct p; reflexivity|].
  cbn [append]. rewrite prefix_cons, Ascii.eqb_refl, IH. reflexivity.
Qed.

Lemma contains_append_self (a p : string) : contains a (a ++ p) = true.
Proof.
  destruct a as [|c a]; [destruct p; reflexivity|].
  cbn [append contains]. change (String c (a ++ p)) with (String c a ++ p).
  rewrite prefix_append. reflexivity.
Qed.

Lemma replace_at_head (c : ascii) (old' new p : string) :
  replace (String c old') new (String c old' ++ p)
  = new ++ replace (String c old') new p.
Proof.
  unfold replace. cbn [append replace_from].
  change (String c (old' ++ p)) with (String c old' ++ p). rewrite prefix_append.
  replace (String.length (String c old') - 1)%nat with (String.length old')
    by (cbn [String.length]; lia).
  rewrite replace_from_skip. reflexivity.
Qed.

(** X7: a value that is [<READFILE>] followed by a path with no marker in
    it names exactly that path: the file of that path is opened and read in
    text mode, so that the value becomes the contents of the file with a
    carriage return and line feed, and a carriage return alone, turned into
    a line feed; a missing file is a [FileNotFoundError] for that path. *)
Theorem process_str_readfile_path (E : Env) (p : string) (w : world) :
  contains TIMESTAMP p = false ->
  contains READFILE p = false ->
  replace READFILE "" (READFILE ++ p) = p
  /\ process_str E (READFILE ++ p) w
     = (match fs w p with
        | Some contents => Return (PStr (universal_newlines contents))
        | None => Raise (FileNotFoundError p)
        end, opened w p).
Proof.
  intros HT HR.
  assert (Hpath : replace READFILE "" (READFILE ++ p) = p).
  { unfold READFILE. rewrite replace_at_head. cbn [append].
    apply replace_absent. exact HR. }
  split; [exact Hpath|].
  rewrite process_str_readfile.
  - rewrite Hpath. unfold read_text. destruct (fs w p); reflexivity.
  - unfold READFILE, TIMESTAMP in *. cbn [append contains].
    rewrite !prefix_cons. cbn. exact HT.
  - apply contains_append_self.
Qed.

Lemma process_str_readfile_path_witness :
  replace READFILE "" (READFILE ++ "prompt.txt") = "prompt.txt"
  /\ process_str (mock_env (Raise TypeError) 0 [] no_grading) (READFILE ++ "prompt.txt")
       crlf_world
     = (match fs crlf_world "prompt.txt" with
        | Some contents => Return (PStr (universal_newlines contents))
        | None => Raise (FileNotFoundError "prompt.txt")
        end, opened crlf_world "prompt.txt").
Proof.
  apply (process_str_readfile_path (mock_env (Raise TypeError) 0 [] no_grading)
           "prompt.txt" crlf_world); reflexivity.
Defined.

Lemma process_value_identity (E : Env) (v : pyval) :
  forall w : world,
    all_strings marker_free v = true -> process_value E v w = (Return v, w).
Proof.
  induction v as [| | | | s | l _ | d IH] using pyval_nested_ind; intros w Hfree;
    try reflexivity.
  - cbn [all_strings] in Hfree. unfold marker_free in Hfree.
    apply andb_prop in Hfree as [HT HR].
    apply negb_true_iff in HT, HR. exact (process_str_plain E s w HT HR).
  - cbn [process_value]. rewrite process_config_dict. unfold bind, ret.
    assert (Hitems : process_items E d w = (Return d, w)).
    { induction d as [|[k x] d IHd]; [reflexivity|].
      inversion IH as [|? ? Hx Hd]; subst. cbn [snd] in Hx.
      rewrite all_strings_dict_cons in Hfree. apply andb_prop in Hfree as [Fx Fd].
      cbn [process_items]. unfold bind, ret. rewrite (Hx w Fx).
      fold (process_items E). rewrite (IHd Hd Fd). reflexivity. }
    rewrite Hitems. reflexivity.
Qed.

(** X8: a configuration none of whose strings has a marker comes out of
    [process_config] as it went in, and nothing is read: neither the clock
    nor a file. *)
Theorem process_config_no_marker (E : Env) (obj : pyval) (w : world) :
  all_strings marker_free obj = true ->
  process_config E obj w = (Return obj, w).
Proof.
  intros Hfree. destruct obj; try reflexivity.
  exact (process_value_identity E (PDict d) w Hfree).
Qed.

Lemma process_config_no_marker_witness :
  process_config down_env plain_config down_world = (Return plain_config, down_world).
Proof.
  apply (process_config_no_marker down_env plain_config down_world). reflexivity.
Defined.

(** X9: materializing twice is materializing once: under the conditions
    of the marker invariant, a second [process_config] on the result
    changes nothing and reads nothing. *)
Theorem process_config_idempotent (E : Env) (obj obj' : pyval) (w w' : world) :
  config_mapping obj = true ->
  all_strings not_both obj = true ->
  all_strings (substituted_free (fs w)) obj = true ->
  process_config E obj w = (Return obj', w') ->
  process_config E obj' w' = (Return obj', w').
Proof.
  intros Hshape Hboth Hfiles H.
  destruct obj as [| | | | | |d]; try discriminate Hshape.
  pose proof (process_value_marker_free E (PDict d) w w' obj' Hshape Hboth Hfiles H)
    as Hfree.
  destruct obj'; try reflexivity.
  exact (process_value_identity E (PDict d0) w' Hfree).
Qed.

Lemma process_config_idempotent_witness :
  process_config (mock_env (Raise TypeError) 1700000000 [] no_grading)
    (PDict [("testdata_path", PStr "qa.jsonl");
            ("results_dir", PStr "results/run1700000000");
            ("target_url", PStr "http://target/chat");
            ("target_parameters",
             PDict [("overrides",
                     PDict [("prompt_template", PStr "Answer briefly.")])])])
    (opened (timed sample_world) "prompt.txt")
  = (Return
       (PDict [("testdata_path", PStr "qa.jsonl");
               ("results_dir", PStr "results/run1700000000");
               ("target_url", PStr "http://target/chat");
               ("target_parameters",
                PDict [("overrides",
                        PDict [("prompt_template", PStr "Answer briefly.")])])]),
     opened (timed sample_world) "prompt.txt").
Proof.
  apply (process_config_idempotent (mock_env (Raise TypeError) 1700000000 [] no_grading)
           sample_config _ sample_world); reflexivity.
Defined.

Lemma process_str_returns_str (E : Env) (s : string) (w w' : world) (v' : pyval) :
  process_str E s w = (Return v', w') -> exists s', v' = PStr s'.
Proof.
  destruct (contains TIMESTAMP s) eqn:HT.
  - rewrite (process_str_timestamp E s w HT). intros H. inversion H. eexists. reflexivity.
  - destruct (contains READFILE s) eqn:HR.
    + rewrite (process_str_readfile E s w HT HR).
      destruct (read_text w (replace READFILE "" s)); intros H; inversion H.
      eexists. reflexivity.
    + rewrite (process_str_plain E s w HT HR). intros H. inversion H.
      eexists. reflexivity.
Qed.

Lemma blank_strings_dict_cons (k : string) (x : pyval) (d d' : list (string * pyval)) :
  blank_strings (PDict d') = blank_strings (PDict d) ->
  forall x', blank_strings x' = blank_strings x ->
  blank_strings (PDict ((k, x') :: d')) = blank_strings (PDict ((k, x) :: d)).
Proof.
  intros Hd x' Hx. cbn [blank_strings] in Hd |- *. injection Hd as Hd.
  rewrite Hx, Hd. reflexivity.
Qed.

Lemma process_value_blank (E : Env) (v : pyval) :
  forall (w w' : world) (v' : pyval),
    process_value E v w = (Return v', w') -> blank_strings v' = blank_strings v.
Proof.
  induction v as [| | | | s | l _ | d IH] using pyval_nested_ind; intros w w' v' H;
    try (inversion H; reflexivity).
  - destruct (process_str_returns_str E s w w' v' H) as [s' ->]. reflexivity.
  - cbn [process_value] in H. apply process_config_dict_inv in H as (d' & H & ->).
    revert w d' H. induction d as [|[k x] d IHd]; intros w d' H.
    + inversion H. reflexivity.
    + inversion IH as [|? ? Hx Hd]; subst.
      apply process_items_cons_inv in H as (x' & dd & w1 & H1 & H2 & ->).
      apply blank_strings_dict_cons; [exact (IHd Hd w1 dd H2) | exact (Hx w w1 x' H1)].
Qed.

(** X10: [process_config] changes nothing but string values of mappings:
    the keys, their order and the nesting are kept, and every value that is
    not a string or a mapping, a list with markers in it included, is left
    as it is. *)
Theorem process_config_keeps_shape (E : Env) (obj obj' : pyval) (w w' : world) :
  process_config E obj w = (Return obj', w') ->
  blank_strings obj' = blank_strings obj.
Proof.
  intros H. destruct obj; try (inversion H; reflexivity).
  exact (process_value_blank E (PDict d) w w' obj' H).
Qed.

Lemma process_config_keeps_shape_witness :
  blank_strings
    (PDict [("results_dir", PStr "results/1700000000");
            ("tags", PList [PStr "<TIMESTAMP>"; PStr "<READFILE>prompt.txt"]);
            ("top", PInt 3)])
  = blank_strings listed_marker_config.
Proof.
  apply (process_config_keeps_shape (mock_env (Raise TypeError) 1700000000 [] no_grading)
           listed_marker_config _ empty_world (timed empty_world)).
  reflexivity.
Defined.

Lemma reads_only_refl (w : world) : reads_only w w.
Proof.
  split; [reflexivity|]. exists []. split; [symmetry; apply app_nil_r | constructor].
Qed.

Lemma reads_only_trans (w1 w2 w3 : world) :
  reads_only w1 w2 -> reads_only w2 w3 -> reads_only w1 w3.
Proof.
  intros [F1 (e1 & T1 & R1)] [F2 (e2 & T2 & R2)]. split; [congruence|].
  exists (e1 ++ e2)%list. split.
  - rewrite T2, T1, app_assoc. reflexivity.
  - apply Forall_app. split; assumption.
Qed.

Lemma reads_only_event (w : world) (ev : event) :
  read_event ev -> reads_only w (World (fs w) (trace w ++ [ev])).
Proof.
  intros Hev. split; [reflexivity|]. exists [ev]. split; [reflexivity|].
  constructor; [exact Hev | constructor].
Qed.

Lemma process_str_reads_only (E : Env) (s : string) (w w' : world) (r : outcome pyval) :
  process_str E s w = (r, w') -> reads_only w w'.
Proof.
  destruct (contains TIMESTAMP s) eqn:HT.
  - rewrite (process_str_timestamp E s w HT). intros H. inversion H.
    apply reads_only_event. left. reflexivity.
  - destruct (contains READFILE s) eqn:HR.
    + rewrite (process_str_readfile E s w HT HR). intros H. inversion H.
      apply reads_only_event. right. eexists. reflexivity.
    + rewrite (process_str_plain E s w HT HR). intros H. inversion H.
      apply reads_only_refl.
Qed.

Lemma process_value_reads_only (E : Env) (v : pyval) :
  forall (w w' : world) (r : outcome pyval),
    process_value E v w = (r, w') -> reads_only w w'.
Proof.
  induction v as [| | | | s | l _ | d IH] using pyval_nested_ind; intros w w' r H;
    try (inversion H; apply reads_only_refl).
  - exact (process_str_reads_only E s w w' r H).
  - cbn [process_value] in H. rewrite process_config_dict in H.
    assert (Hitems : forall w w' r, process_items E d w = (r, w') -> reads_only w w').
    { clear H w w' r. induction d as [|[k x] d IHd]; intros w w' r H.
      - inversion H. apply reads_only_refl.
      - inversion IH as [|? ? Hx Hd]; subst. cbn [process_items] in H. unfold bind in H.
        fold (process_items E) in H.
        destruct (process_value E x w) as [[x'|e] w1] eqn:Hx1.
        + apply Hx in Hx1. destruct (process_items E d w1) as [[d'|e] w2] eqn:Hd1;
            apply (IHd Hd) in Hd1; inversion H; subst;
            exact (reads_only_trans _ _ _ Hx1 Hd1).
        + apply Hx in Hx1. inversion H; subst. exact Hx1. }
    unfold bind in H. destruct (process_items E d w) as [[d'|e] w1] eqn:Hd1;
      apply Hitems in Hd1; inversion H; subst; exact Hd1.
Qed.

(** X11: whether it returns or raises, [process_config] leaves every file
    as it was, and all it does to the outside is read the clock and open
    files for reading: it writes nothing and sends no request. *)
Theorem process_config_reads_only
    (E : Env) (obj : pyval) (w w' : world) (r : outcome pyval) :
  process_config E obj w = (r, w') -> reads_only w w'.
Proof.
  intros H. destruct obj; try (inversion H; apply reads_only_refl).
  exact (process_value_reads_only E (PDict d) w w' r H).
Qed.

Lemma process_config_reads_only_witness :
  reads_only sample_world (opened (timed sample_world) "prompt.txt").
Proof.
  apply (process_config_reads_only (mock_env (Raise TypeError) 1700000000 [] no_grading)
           sample_config sample_world _
           (Return
              (PDict [("testdata_path", PStr "qa.jsonl");
                      ("results_dir", PStr "results/run1700000000");
                      ("target_url", PStr "http://target/chat");
                      ("target_parameters",
                       PDict [("overrides",
                               PDict [("prompt_template", PStr "Answer briefly.")])])]))).
  reflexivity.
Defined.

(** ** More on the metric aggregator *)

Lemma fold_left_sum {A} (f : A -> Z) (l : list A) :
  forall a : Z, fold_left (fun acc q => acc + f q) l a = a + zsum (map f l).
Proof.
  induction l as [|x l IH]; intros a; cbn [fold_left map zsum fold_right].
  - lia.
  - rewrite IH. unfold zsum. lia.
Qed.

Lemma fold_left_max_bounds {A} (f : A -> Z) (l : list A) :
  forall a : Z,
    a <= fold_left (fun acc q => Z.max acc (f q)) l a
    /\ (forall q, In q l -> f q <= fold_left (fun acc q => Z.max acc (f q)) l a)
    /\ (fold_left (fun acc q => Z.max acc (f q)) l a = a
        \/ exists q, In q l /\ f q = fold_left (fun acc q => Z.max acc (f q)) l a).
Proof.
  induction l as [|x l IH]; intros a; cbn [fold_left].
  - split; [lia | split; [intros q [] | left; reflexivity]].
  - destruct (IH (Z.max a (f x))) as (Hle & Hall & Hatt). split; [lia | split].
    + intros q [<- | Hq]; [lia | exact (Hall q Hq)].
    + destruct Hatt as [Heq | (q & Hq & Hfq)].
      * destruct (Z.max_spec a (f x)) as [[_ Hm] | [_ Hm]].
        -- right. exists x. split; [left; reflexivity | congruence].
        -- left. congruence.
      * right. exists q. split; [right; exact Hq | exact Hfq].
Qed.

Lemma fold_left_min_bounds {A} (f : A -> Z) (l : list A) :
  forall a : Z,
    fold_left (fun acc q => Z.min acc (f q)) l a <= a
    /\ (forall q, In q l -> fold_left (fun acc q => Z.min acc (f q)) l a <= f q)
    /\ (fold_left (fun acc q => Z.min acc (f q)) l a = a
        \/ exists q, In q l /\ f q = fold_left (fun acc q => Z.min acc (f q)) l a).
Proof.
  induction l as [|x l IH]; intros a; cbn [fold_left].
  - split; [lia | split; [intros q [] | left; reflexivity]].
  - destruct (IH (Z.min a (f x))) as (Hle & Hall & Hatt). split; [lia | split].
    + intros q [<- | Hq]; [lia | exact (Hall q Hq)].
    + destruct Hatt as [Heq | (q & Hq & Hfq)].
      * destruct (Z.min_spec a (f x)) as [[_ Hm] | [_ Hm]].
        -- left. congruence.
        -- right. exists x. split; [left; reflexivity | congruence].
      * right. exists q. split; [right; exact Hq | exact Hfq].
Qed.

Lemma fold_left_cited (l : list pyval) :
  forall a : Z,
    fold_left (fun acc q => acc + (if has_citation (answer_of q) then 1 else 0)) l a
    = a + count_cited l.
Proof.
  unfold count_cited. induction l as [|x l IH]; intros a; cbn [fold_left filter].
  - simpl. lia.
  - rewrite IH. destruct (has_citation (answer_of x)); cbn [List.length]; lia.
Qed.

(** The summary of a non-empty sequence of rated records, in closed form. *)
Lemma aggregate_closed_form (E : Env) (m0 : list (string * metric)) (qs : list pyval) :
  qs <> [] ->
  forallb rated_recordb qs = true ->
  map fst m0 = gpt_metrics ->
  aggregate E m0 qs
  = Return (Summary
      (final_metrics 0 qs m0)
      (zsum (map answer_length qs))
      (float_round2 (quotient64 (zsum (map answer_length qs)) (Z.of_nat (List.length qs))))
      (fold_left (fun acc q => Z.max acc (answer_length q)) qs 0)
      (fold_left (fun acc q => Z.min acc (answer_length q)) qs 9999999999)
      (count_cited qs)
      (float_round2 (quotient64 (count_cited qs) (Z.of_nat (List.length qs))))).
Proof.
  intros Hne Hqs Hkeys. unfold aggregate.
  rewrite (aggregate_loop_ok E qs 0 (Totals m0 0 0 9999999999 0) Hqs Hkeys (Z.le_refl 0)).
  cbn [obind]. rewrite !int_truediv_pos by (destruct qs; [congruence | simpl; lia]).
  cbn [obind final_totals metrics total_length max_length min_length total_with_citation].
  rewrite fold_left_sum, fold_left_cited, !Z.add_0_l. reflexivity.
Qed.

(** X12: over a non-empty sequence of rated records, the total answer
    length is the sum of the lengths of the answers, the citation total is
    the number of answers with a citation, which is at most the number of
    records, and the mean and the rate are these totals over the number of
    records, rounded to two decimals. *)
Theorem aggregate_totals (E : Env) (m0 : list (string * metric)) (qs : list pyval) :
  qs <> [] ->
  forallb rated_recordb qs = true ->
  map fst m0 = gpt_metrics ->
  exists s,
    aggregate E m0 qs = Return s
    /\ length_total s = zsum (map answer_length qs)
    /\ citation_total s = count_cited qs
    /\ 0 <= citation_total s <= Z.of_nat (List.length qs)
    /\ length_mean s
       = float_round2 (quotient64 (length_total s) (Z.of_nat (List.length qs)))
    /\ citation_rate s
       = float_round2 (quotient64 (citation_total s) (Z.of_nat (List.length qs))).
Proof.
  intros Hne Hqs Hkeys. eexists. split; [exact (aggregate_closed_form E m0 qs Hne Hqs Hkeys)|].
  cbn [length_total citation_total length_mean citation_rate].
  repeat split; try reflexivity.
  - unfold count_cited. lia.
  - unfold count_cited.
    pose proof (filter_length_le (fun q => has_citation (answer_of q)) qs). lia.
Qed.

Lemma aggregate_totals_witness :
  exists s,
    aggregate (mock_env (Raise TypeError) 0 [] no_grading) fresh_metrics ratings_5_3_4
    = Return s
    /\ length_total s = zsum (map answer_length ratings_5_3_4)
    /\ citation_total s = count_cited ratings_5_3_4
    /\ 0 <= citation_total s <= Z.of_nat (List.length ratings_5_3_4)
    /\ length_mean s
       = float_round2 (quotient64 (length_total s) (Z.of_nat (List.length ratings_5_3_4)))
    /\ citation_rate s
       = float_round2 (quotient64 (citation_total s)
                         (Z.of_nat (List.length ratings_5_3_4))).
Proof.
  apply (aggregate_totals (mock_env (Raise TypeError) 0 [] no_grading) fresh_metrics
           ratings_5_3_4).
  - discriminate.
  - reflexivity.
  - reflexivity.
Defined.

Lemma all_above_or_one_below {A} (f : A -> Z) (bound : Z) (l : list A) :
  (forall q, In q l -> bound < f q) \/ (exists q, In q l /\ f q <= bound).
Proof.
  induction l as [|x l [Hall | (q & Hq & Hle)]].
  - left. intros q [].
  - destruct (Z.lt_ge_cases bound (f x)) as [Hx | Hx].
    + left. intros q [<- | Hq]; [exact Hx | exact (Hall q Hq)].
    + right. exists x. split; [left; reflexivity | lia].
  - right. exists q. split; [right; exact Hq | exact Hle].
Qed.

(** X13: over a non-empty sequence of rated records, every answer length
    lies between the minimum and the maximum reported; the maximum is the
    length of one of the answers, and so is the minimum unless every answer
    is longer than the starting value 9999999999. *)
Theorem aggregate_length_bounds (E : Env) (m0 : list (string * metric)) (qs : list pyval) :
  qs <> [] ->
  forallb rated_recordb qs = true ->
  map fst m0 = gpt_metrics ->
  exists s,
    aggregate E m0 qs = Return s
    /\ (forall q, In q qs -> length_min s <= answer_length q <= length_max s)
    /\ (exists q, In q qs /\ answer_length q = length_max s)
    /\ ((exists q, In q qs /\ answer_length q = length_min s)
        \/ (length_min s = 9999999999
            /\ forall q, In q qs -> 9999999999 < answer_length q)).
Proof.
  intros Hne Hqs Hkeys. eexists. split; [exact (aggregate_closed_form E m0 qs Hne Hqs Hkeys)|].
  cbn [length_min length_max].
  destruct (fold_left_max_bounds answer_length qs 0) as (Hmax0 & Hmax & Hmaxatt).
  destruct (fold_left_min_bounds answer_length qs 9999999999) as (Hmin0 & Hmin & Hminatt).
  split; [|split].
  - intros q Hq. split; [exact (Hmin q Hq) | exact (Hmax q Hq)].
  - destruct Hmaxatt as [Heq | Hatt]; [|exact Hatt].
    destruct qs as [|q qs]; [congruence|]. exists q. split; [left; reflexivity|].
    pose proof (Hmax q (or_introl eq_refl)). unfold answer_length in *. lia.
  - destruct Hminatt as [Heq | Hatt]; [|left; exact Hatt].
    destruct (all_above_or_one_below answer_length 9999999999 qs)
      as [Hlong | (q & Hq & Hshort)].
    + right. split; [exact Heq | exact Hlong].
    + left. exists q. split; [exact Hq|]. pose proof (Hmin q Hq). lia.
Qed.

Lemma aggregate_length_bounds_witness :
  exists s,
    aggregate (mock_env (Raise TypeError) 0 [] no_grading) fresh_metrics ratings_5_3_4
    = Return s
    /\ (forall q, In q ratings_5_3_4 -> length_min s <= answer_length q <= length_max s)
    /\ (exists q, In q ratings_5_3_4 /\ answer_length q = length_max s)
    /\ ((exists q, In q ratings_5_3_4 /\ answer_length q = length_min s)
        \/ (length_min s = 9999999999
            /\ forall q, In q ratings_5_3_4 -> 9999999999 < answer_length q)).
Proof.
  apply (aggregate_length_bounds (mock_env (Raise TypeError) 0 [] no_grading) fresh_metrics
           ratings_5_3_4).
  - discriminate.
  - reflexivity.
  - reflexivity.
Defined.

Lemma aggregate_loop_app (E : Env) (l1 l2 : list pyval) :
  forall (ind : Z) (t : totals),
    aggregate_loop E ind (l1 ++ l2) t
    = obind (aggregate_loop E ind l1 t)
            (aggregate_loop E (ind + Z.of_nat (List.length l1)) l2).
Proof.
  induction l1 as [|q l1 IH]; intros ind t; cbn [app aggregate_loop obind List.length].
  - rewrite Z.add_0_r. reflexivity.
  - destruct (aggregate_step E ind q t) as [t1|e]; cbn [obind]; [|reflexivity].
    rewrite IH. replace (ind + 1 + Z.of_nat (List.length l1))
      with (ind + Z.of_nat (S (List.length l1))) by lia. reflexivity.
Qed.

(** The aggregation stops at the first record whose step raises. *)
Lemma aggregate_first_error (E : Env) (m0 : list (string * metric))
    (good rest : list pyval) (bad : pyval) (e : exn) :
  forallb rated_recordb good = true ->
  map fst m0 = gpt_metrics ->
  (forall t, aggregate_step E (Z.of_nat (List.length good)) bad t = Raise e) ->
  aggregate E m0 (good ++ bad :: rest) = Raise e.
Proof.
  intros Hgood Hkeys Hbad. unfold aggregate. rewrite aggregate_loop_app.
  rewrite (aggregate_loop_ok E good 0 (Totals m0 0 0 9999999999 0) Hgood Hkeys
             (Z.le_refl 0)).
  cbn [obind aggregate_loop]. rewrite Z.add_0_l, Hbad. reflexivity.
Qed.

(** X14: a record without the key [answer] ends the aggregation with
    [KeyError] for that key, wherever it stands among well-formed records
    and whatever follows it: no summary is produced. *)
Theorem aggregate_missing_answer (E : Env) (m0 : list (string * metric))
    (good rest : list pyval) (d : list (string * pyval)) :
  forallb rated_recordb good = true ->
  map fst m0 = gpt_metrics ->
  dict_get d "answer" = None ->
  aggregate E m0 (good ++ PDict d :: rest) = Raise (KeyError "answer").
Proof.
  intros Hgood Hkeys Hd. apply aggregate_first_error; try assumption.
  intros t. unfold aggregate_step, getitem. rewrite Hd. reflexivity.
Qed.

Lemma aggregate_missing_answer_witness :
  aggregate (mock_env (Raise TypeError) 0 [] no_grading) fresh_metrics
    (ratings_5_3_4 ++ PDict unanswered_record :: ratings_5_3_4)
  = Raise (KeyError "answer").
Proof.
  apply (aggregate_missing_answer (mock_env (Raise TypeError) 0 [] no_grading)
           fresh_metrics ratings_5_3_4 ratings_5_3_4 unanswered_record); reflexivity.
Defined.

(** X15: a record whose first graded rating cannot be turned into an
    integer (NaN, an infinity, null, a list) ends the aggregation with the
    error of that conversion; a record that lacks that rating ends it with
    [KeyError]. *)
Theorem aggregate_bad_rating (E : Env) (m0 : list (string * metric))
    (good rest : list pyval) (d : list (string * pyval)) (a : string) :
  forallb rated_recordb good = true ->
  map fst m0 = gpt_metrics ->
  dict_get d "answer" = Some (PStr a) ->
  (forall (r : pyval) (e : exn),
      dict_get d "gpt_coherence" = Some r ->
      py_int E r = Raise e ->
      aggregate E m0 (good ++ PDict d :: rest) = Raise e)
  /\ (dict_get d "gpt_coherence" = None ->
      aggregate E m0 (good ++ PDict d :: rest) = Raise (KeyError "gpt_coherence")).
Proof.
  intros Hgood Hkeys Ha. split.
  - intros r e Hr Hint. apply aggregate_first_error; try assumption.
    intros t. unfold aggregate_step, getitem. rewrite Ha.
    cbn [obind py_len re_search_citation gpt_metrics rate_metrics getitem].
    rewrite Hr. unfold passes_threshold. cbn [obind]. rewrite Hint. reflexivity.
  - intros Hr. apply aggregate_first_error; try assumption.
    intros t. unfold aggregate_step, getitem. rewrite Ha.
    cbn [obind py_len re_search_citation gpt_metrics rate_metrics getitem].
    rewrite Hr. reflexivity.
Qed.

Lemma aggregate_bad_rating_witness :
  aggregate (mock_env (Raise TypeError) 0 [] no_grading) fresh_metrics
    (ratings_5_3_4 ++ PDict nan_rated_record :: ratings_5_3_4)
  = Raise (ValueError "cannot convert float NaN to integer").
Proof.
  apply (proj1 (aggregate_bad_rating (mock_env (Raise TypeError) 0 [] no_grading)
                  fresh_metrics ratings_5_3_4 ratings_5_3_4 nan_rated_record "a"
                  eq_refl eq_refl eq_refl)
           (PFloat S754_nan)); reflexivity.
Defined.

Lemma filter_length_all {A} (f : A -> bool) (l : list A) :
  List.length (filter f l) = List.length l <-> forall x, In x l -> f x = true.
Proof.
  induction l as [|x l IH]; cbn [filter List.length].
  - split; [intros _ y [] | reflexivity].
  - pose proof (filter_length_le f l) as Hle. destruct (f x) eqn:Hx; cbn [List.length].
    + split.
      * intros H y [<- | Hy]; [exact Hx | apply IH; [lia | exact Hy]].
      * intros H. f_equal. apply IH. intros y Hy. apply H. right. exact Hy.
    + split; [lia|]. intros H. specialize (H x (or_introl eq_refl)). congruence.
Qed.

(** X16: over a non-empty sequence of rated records, the pass count of a
    graded metric lies between 0 and the number of records, reaches that
    number exactly when every record has a rating of floor at least 4 for
    the metric, and the mean rating of the entry is left as it was. *)
Theorem aggregate_pass_count_bounds (E : Env) (m0 : list (string * metric))
    (qs : list pyval) :
  qs <> [] ->
  forallb rated_recordb qs = true ->
  map fst m0 = gpt_metrics ->
  exists s,
    aggregate E m0 qs = Return s
    /\ Forall2 (fun km0 km =>
                  fst km = fst km0
                  /\ mean_rating (snd km) = mean_rating (snd km0)
                  /\ pass_count (snd km0) <= pass_count (snd km)
                     <= pass_count (snd km0) + Z.of_nat (List.length qs)
                  /\ (pass_count (snd km)
                      = pass_count (snd km0) + Z.of_nat (List.length qs)
                      <-> forall q, In q qs ->
                                    4 <= rating_floor (rating_of (fst km0) q)))
               m0 (graded s).
Proof.
  intros Hne Hqs Hkeys. eexists. split; [exact (aggregate_closed_form E m0 qs Hne Hqs Hkeys)|].
  cbn [graded]. unfold final_metrics. clear Hkeys.
  induction m0 as [|[k m] m0 IH]; cbn [map]; constructor; [|exact IH].
  cbn [fst snd pass_count mean_rating]. unfold count_passing.
  pose proof (filter_length_le (fun q => 4 <=? rating_floor (rating_of k q)) qs) as Hle.
  split; [reflexivity | split; [reflexivity | split; [lia|]]].
  pose proof (filter_length_all (fun q => 4 <=? rating_floor (rating_of k q)) qs)
    as [Hall_of Hof_all].
  split.
  - intros H q Hq. apply Z.leb_le. apply Hall_of; [lia | exact Hq].
  - intros H. rewrite Hof_all; [reflexivity|].
    intros q Hq. apply Z.leb_le. exact (H q Hq).
Qed.

Lemma aggregate_pass_count_bounds_witness :
  exists s,
    aggregate (mock_env (Raise TypeError) 0 [] no_grading) fresh_metrics ratings_5_3_4
    = Return s
    /\ Forall2 (fun km0 km =>
                  fst km = fst km0
                  /\ mean_rating (snd km) = mean_rating (snd km0)
                  /\ pass_count (snd km0) <= pass_count (snd km)
                     <= pass_count (snd km0) + Z.of_nat (List.length ratings_5_3_4)
                  /\ (pass_count (snd km)
                      = pass_count (snd km0) + Z.of_nat (List.length ratings_5_3_4)
                      <-> forall q, In q ratings_5_3_4 ->
                                    4 <= rating_floor (rating_of (fst km0) q)))
               fresh_metrics (graded s).
Proof.
  apply (aggregate_pass_count_bounds (mock_env (Raise TypeError) 0 [] no_grading)
           fresh_metrics ratings_5_3_4).
  - discriminate.
  - reflexivity.
  - reflexivity.
Defined.

(** ** More on the target invoker *)

(** X17: without [raise_error] the call never raises: whatever the target
    does (refuse the connection, answer something that is not JSON, answer
    another shape), the call returns a response that carries the question,
    and all it did was send the one request. *)
Theorem send_question_never_raises
    (E : Env) (q : string) (url params : pyval) (w : world) :
  exists resp,
    send_question_to_target E q url params false w
    = (Return resp, posted w url q params)
    /\ question resp = q.
Proof.
  unfold send_question_to_target, posted, try_except, bind, log, lift, raise, ret.
  cbn [fs trace].
  destruct (requests_post E _ url (request_body q params)) as [r|e].
  - destruct (json r) as [v|e].
    + destruct (extract v) as [[a c]|e]; eexists; split; reflexivity.
    + eexists; split; reflexivity.
  - eexists; split; reflexivity.
Qed.

Lemma all_str_strings (l : list pyval) (ss : list string) :
  all_str l = Return ss <-> l = map PStr ss.
Proof.
  revert ss. induction l as [|x l IH]; intros ss; cbn [all_str]; split.
  - intros [= <-]. reflexivity.
  - destruct ss; [reflexivity | discriminate].
  - destruct x; try discriminate.
    destruct (all_str l) as [r|e] eqn:Hl; [|discriminate]. cbn [obind].
    intros [= <-]. cbn [map]. f_equal. apply IH. reflexivity.
  - destruct ss as [|s' ss]; [discriminate|]. cbn [map]. intros [= -> ->].
    rewrite all_str_map. reflexivity.
Qed.

(** X18: the response parses exactly when it is an object whose [choices]
    is a list that starts with an object, with [message.content] and
    [context.data_points.text] in place, the text being a list of strings,
    a string (its characters are joined) or an object (its keys are
    joined); the answer is the content as it is, of whatever type. *)
Theorem extract_shape (v a : pyval) (c : string) :
  extract v = Return (a, c)
  <-> exists d dc others dm dx dp t,
        v = PDict d
        /\ dict_get d "choices" = Some (PList (PDict dc :: others))
        /\ dict_get dc "message" = Some (PDict dm)
        /\ dict_get dm "content" = Some a
        /\ dict_get dc "context" = Some (PDict dx)
        /\ dict_get dx "data_points" = Some (PDict dp)
        /\ dict_get dp "text" = Some t
        /\ ((exists ss, t = PList (map PStr ss) /\ c = join blank_line ss)
            \/ (exists s, t = PStr s /\ c = join blank_line (chars s))
            \/ (exists dk, t = PDict dk /\ c = join blank_line (map fst dk))).
Proof.
  split.
  - unfold extract, getitem.
    destruct v as [| | | | | |d]; try discriminate.
    destruct (dict_get d "choices") as [ch|] eqn:Hch; [|discriminate]. cbn [obind].
    destruct ch as [| | | |s0|[|x others]|]; try discriminate;
      [destruct s0; discriminate|].
    cbn [getitem0 obind].
    destruct x as [| | | | | |dc]; try discriminate.
    destruct (dict_get dc "message") as [[| | | | | |dm]|] eqn:Hmsg; try discriminate.
    cbn [obind].
    destruct (dict_get dm "content") as [a'|] eqn:Hcontent; [|discriminate]. cbn [obind].
    destruct (dict_get dc "context") as [[| | | | | |dx]|] eqn:Hctx; try discriminate.
    cbn [obind].
    destruct (dict_get dx "data_points") as [[| | | | | |dp]|] eqn:Hdp; try discriminate.
    cbn [obind].
    destruct (dict_get dp "text") as [t|] eqn:Htext; [|discriminate]. cbn [obind].
    destruct (str_join blank_line t) as [c'|] eqn:Hjoin; [|discriminate]. cbn [obind].
    intros [= <- <-]. exists d, dc, others, dm, dx, dp, t.
    repeat (split; [first [reflexivity | assumption]|]).
    destruct t; try discriminate Hjoin; cbn [str_join] in Hjoin.
    + right. left. injection Hjoin as <-. eexists. split; reflexivity.
    + left. destruct (all_str l) as [ss|] eqn:Hl; [|discriminate Hjoin].
      cbn [obind] in Hjoin. injection Hjoin as <-.
      apply all_str_strings in Hl. exists ss. split; [f_equal; exact Hl | reflexivity].
    + right. right. injection Hjoin as <-. eexists. split; reflexivity.
  - intros (d & dc & others & dm & dx & dp & t & -> & Hch & Hmsg & Hcontent & Hctx
            & Hdp & Htext & Hjoin).
    unfold extract, getitem. rewrite Hch. cbn [obind getitem0].
    rewrite Hmsg. cbn [obind]. rewrite Hcontent. cbn [obind].
    rewrite Hctx. cbn [obind]. rewrite Hdp. cbn [obind]. rewrite Htext. cbn [obind].
    destruct Hjoin as [(ss & -> & ->) | [(s & -> & ->) | (dk & -> & ->)]];
      cbn [str_join]; [rewrite all_str_map|..]; reflexivity.
Qed.

(** ** More on the run orchestrator *)

Lemma send_question_parsed
    (E : Env) (q : string) (url params : pyval) (b : bool) (w : world)
    (r : response) (v a : pyval) (c : string) :
  requests_post E (posted w url q params) url (request_body q params) = Return r ->
  json r = Return v ->
  extract v = Return (a, c) ->
  send_question_to_target E q url params b w
  = (Return (TargetResponse q a c), posted w url q params).
Proof.
  intros Hpost Hjson Hextract.
  unfold send_question_to_target, posted, try_except, bind, log, lift, ret in *.
  cbn [fs trace] in *. rewrite Hpost, Hjson, Hextract. reflexivity.
Qed.

(** X19: a target that answers in the expected shape but with an answer
    that has no length (null, a number, a boolean) fails the health check:
    the log line about the answer raises inside the [try], so the run
    returns [False] after the one request, as if the target were down. *)
Theorem run_evaluation_answer_without_length
    (E : Env) (openai_config : pyval) (testdata_path results_dir : string)
    (target_url target_parameters : pyval) (num_questions : option Z)
    (w w1 : world) (testdata : list pyval)
    (r : response) (v a : pyval) (c : string) (e : exn) :
  load_jsonl E testdata_path w = (Return testdata, w1) ->
  requests_post E (posted w1 target_url probe_question target_parameters) target_url
                (request_body probe_question target_parameters) = Return r ->
  json r = Return v ->
  extract v = Return (a, c) ->
  py_len a = Raise e ->
  run_evaluation E openai_config testdata_path results_dir target_url target_parameters
                 num_questions w
  = (Return false, posted w1 target_url probe_question target_parameters).
Proof.
  intros Hload Hpost Hjson Hextract Hlen.
  unfold run_evaluation, bind. rewrite Hload.
  unfold health_check, try_except, bind.
  rewrite (send_question_parsed E probe_question target_url target_parameters true w1
             r v a c Hpost Hjson Hextract).
  cbn [question answer context]. unfold lift at 1.
  let t := eval vm_compute in (truncate_for_log (PStr probe_question)) in
  change (truncate_for_log (PStr probe_question)) with t.
  cbn iota beta. unfold lift at 1. unfold truncate_for_log at 1. rewrite Hlen.
  reflexivity.
Qed.

Lemma run_evaluation_answer_without_length_witness :
  run_evaluation null_answer_env (PDict [("model", PStr "gpt-4")]) "eval/qa.jsonl"
    "eval/results" (PStr "http://target/chat") (PDict []) None down_world
  = (Return false,
     posted (opened down_world "eval/qa.jsonl") (PStr "http://target/chat")
            probe_question (PDict [])).
Proof.
  apply (run_evaluation_answer_without_length null_answer_env
           (PDict [("model", PStr "gpt-4")]) "eval/qa.jsonl" "eval/results"
           (PStr "http://target/chat") (PDict []) None down_world
           (opened down_world "eval/qa.jsonl") [dataset_record]
           (Response (Return null_answer_reply)) null_answer_reply PNone
           ("a" ++ blank_line ++ "b") TypeError); reflexivity.
Defined.

Lemma append_inj_l (a b c : string) : a ++ b = a ++ c -> b = c.
Proof.
  induction a as [|x a IH]; cbn [append]; intros H; [exact H|].
  injection H as H. exact (IH H).
Qed.

Lemma join_cons (sep s t : string) (l : list string) :
  join sep (s :: t :: l) = s ++ sep ++ join sep (t :: l).
Proof. reflexivity. Qed.

Lemma join_last_inj (sep a b : string) (l : list string) :
  join sep (l ++ [a]) = join sep (l ++ [b]) -> a = b.
Proof.
  induction l as [|s l IH]; cbn [app]; [intros H; exact H|].
  destruct l as [|t l]; cbn [app] in *.
  - cbn [join]. intros H. apply append_inj_l in H. apply append_inj_l in H.
    exact H.
  - rewrite !join_cons. intros H. apply append_inj_l in H. apply append_inj_l in H.
    exact (IH H).
Qed.

(** A file name put after a directory: the last part of the path. *)
Lemma path_join_file (dir name : string) :
  prefix "/" name = false ->
  path_parts name = [name] ->
  path_join dir name = path_root dir ++ join "/" (path_parts dir ++ [name]).
Proof.
  intros Hrel Hname. unfold path_join, path_str. rewrite Hrel, Hname.
  destruct (path_root dir); destruct (path_parts dir); reflexivity.
Qed.

Lemma report_paths_differ (results_dir : string) :
  path_join results_dir "summary.json" <> path_join results_dir "evaluate_parameters.json".
Proof.
  rewrite !path_join_file by reflexivity.
  intros H. apply append_inj_l in H. apply join_last_inj in H. discriminate H.
Qed.

(** Up to the summary: the grading call, its first artifact, the rated
    records, the aggregation and the writing of [summary.json]. *)
Lemma grade_and_report_summary
    (E : Env) (openai_config : pyval) (testdata_path results_dir : string)
    (target_url target_parameters : pyval) (num_questions : option Z)
    (testdata : list pyval) (w w1 : world) (results : eval_results)
    (k text dumped : string) (qs : list pyval) (m0 : list (string * metric)) (s : summary) :
  evaluate E (wrap_target E target_url target_parameters) testdata openai_config
           results_dir (grading w testdata results_dir) = (Return results, w1) ->
  first_key (artifacts results) = Return k ->
  read_text w1 (path_join results_dir k) = Some text ->
  map_outcome (json_loads E) (readlines text) = Return qs ->
  init_metrics (metrics_summary results) gpt_metrics = Return m0 ->
  aggregate E m0 qs = Return s ->
  json_dumps E (summary_to_py s) = Return dumped ->
  grade_and_report E openai_config testdata_path results_dir target_url
                   target_parameters num_questions testdata w
  = write_parameters E openai_config testdata_path results_dir target_url
                     target_parameters num_questions
                     (summarized w1 (path_join results_dir k) results_dir dumped).
Proof.
  intros Heval Hkey Hfile Hlines Hinit Hagg Hdump.
  assert (Hopen : fs w1 (path_join results_dir k) <> None).
  { intros Hnone. apply read_text_none in Hnone. congruence. }
  unfold grade_and_report, write_parameters, summarized, grading, open_read, file_open,
    file_read, open_write, file_write, bind, log, lift, ret in *.
  rewrite Heval, Hkey. cbn [fs trace].
  destruct (fs w1 (path_join results_dir k)) as [contents|] eqn:Hraw; [|congruence].
  change (read_text (World (fs w1) (trace w1 ++ [EvOpenRead (path_join results_dir k)]))
            (path_join results_dir k))
    with (read_text w1 (path_join results_dir k)).
  rewrite Hfile. cbn [fs trace].
  rewrite Hlines, Hinit, Hagg. cbn [fs trace]. rewrite Hdump. cbn [fs trace].
  rewrite !set_file_same. cbn [append]. rewrite <- !app_assoc. reflexivity.
Qed.

(** X20: an OpenAI configuration without [model] is found out only at the
    very end: the grading has run and [summary.json] is written in full;
    [evaluate_parameters.json] has been created and is left empty; the run
    raises the error of the lookup instead of returning. *)
Theorem grade_and_report_without_model
    (E : Env) (openai_config : pyval) (testdata_path results_dir : string)
    (target_url target_parameters : pyval) (num_questions : option Z)
    (testdata : list pyval) (w w1 : world) (results : eval_results)
    (k text dumped : string) (qs : list pyval) (m0 : list (string * metric)) (s : summary)
    (e : exn) :
  evaluate E (wrap_target E target_url target_parameters) testdata openai_config
           results_dir (grading w testdata results_dir) = (Return results, w1) ->
  first_key (artifacts results) = Return k ->
  read_text w1 (path_join results_dir k) = Some text ->
  map_outcome (json_loads E) (readlines text) = Return qs ->
  init_metrics (metrics_summary results) gpt_metrics = Return m0 ->
  aggregate E m0 qs = Return s ->
  json_dumps E (summary_to_py s) = Return dumped ->
  getitem openai_config "model" = Raise e ->
  exists w',
    grade_and_report E openai_config testdata_path results_dir target_url
                     target_parameters num_questions testdata w
    = (Raise e, w')
    /\ fs w' (path_join results_dir "summary.json") = Some dumped
    /\ fs w' (path_join results_dir "evaluate_parameters.json") = Some ""
    /\ trace w'
       = (trace w1 ++ [EvOpenRead (path_join results_dir k);
                       EvOpenWrite (path_join results_dir "summary.json");
                       EvWrite (path_join results_dir "summary.json") dumped;
                       EvOpenWrite (path_join results_dir "evaluate_parameters.json")])%list.
Proof.
  intros Heval Hkey Hfile Hlines Hinit Hagg Hdump Hmodel.
  rewrite (grade_and_report_summary E openai_config testdata_path results_dir target_url
             target_parameters num_questions testdata w w1 results k text dumped qs m0 s
             Heval Hkey Hfile Hlines Hinit Hagg Hdump).
  unfold write_parameters, summarized, open_write, bind, lift. cbn [fs trace].
  rewrite Hmodel. eexists. split; [reflexivity|]. cbn [fs trace]. split; [|split].
  - rewrite set_file_other by apply report_paths_differ. apply set_file_same.
  - apply set_file_same.
  - rewrite <- app_assoc. reflexivity.
Qed.

Lemma grade_and_report_without_model_witness :
  exists w',
    grade_and_report report_env (PDict [("deployment", PStr "gpt-4")]) "qa.jsonl" "results"
      (PStr "http://target/chat") (PDict []) None [dataset_record] report_world
    = (Raise (KeyError "model"), w')
    /\ fs w' (path_join "results" "summary.json") = Some "{}"
    /\ fs w' (path_join "results" "evaluate_parameters.json") = Some ""
    /\ trace w'
       = (trace (grading report_world [dataset_record] "results")
          ++ [EvOpenRead (path_join "results" "eval_results.jsonl");
              EvOpenWrite (path_join "results" "summary.json");
              EvWrite (path_join "results" "summary.json") "{}";
              EvOpenWrite (path_join "results" "evaluate_parameters.json")])%list.
Proof.
  eapply (grade_and_report_without_model report_env (PDict [("deployment", PStr "gpt-4")])
            "qa.jsonl" "results" (PStr "http://target/chat") (PDict []) None
            [dataset_record] report_world
            (grading report_world [dataset_record] "results")
            (EvalResults mean_ratings [("eval_results.jsonl", PNone)])
            "eval_results.jsonl" rated_line "{}" [rated "see [doc.pdf]" (PInt 5)]).
  - reflexivity.
  - reflexivity.
  - reflexivity.
  - reflexivity.
  - reflexivity.
  - vm_compute. reflexivity.
  - reflexivity.
  - reflexivity.
Defined.

(** X21: when every step succeeds, the part of the run after the health
    check returns [True] having written exactly two files, the summary to
    [summary.json] and the parameters, with the reading of the clock, to
    [evaluate_parameters.json]; every other file is as the grading call
    left it, so [config.json] is not written here. *)
Theorem grade_and_report_success
    (E : Env) (openai_config : pyval) (testdata_path results_dir : string)
    (target_url target_parameters : pyval) (num_questions : option Z)
    (testdata : list pyval) (w w1 : world) (results : eval_results)
    (k text dumped : string) (qs : list pyval) (m0 : list (string * metric)) (s : summary)
    (model : pyval) (dumped' : Z -> string) :
  evaluate E (wrap_target E target_url target_parameters) testdata openai_config
           results_dir (grading w testdata results_dir) = (Return results, w1) ->
  first_key (artifacts results) = Return k ->
  read_text w1 (path_join results_dir k) = Some text ->
  map_outcome (json_loads E) (readlines text) = Return qs ->
  init_metrics (metrics_summary results) gpt_metrics = Return m0 ->
  aggregate E m0 qs = Return s ->
  json_dumps E (summary_to_py s) = Return dumped ->
  getitem openai_config "model" = Return model ->
  (forall now,
      json_dumps E (run_parameters model now testdata_path target_url target_parameters
                                   num_questions) = Return (dumped' now)) ->
  exists now w',
    grade_and_report E openai_config testdata_path results_dir target_url
                     target_parameters num_questions testdata w
    = (Return true, w')
    /\ fs w' (path_join results_dir "summary.json") = Some dumped
    /\ fs w' (path_join results_dir "evaluate_parameters.json") = Some (dumped' now)
    /\ (forall p, p <> path_join results_dir "summary.json" ->
                  p <> path_join results_dir "evaluate_parameters.json" ->
                  fs w' p = fs w1 p)
    /\ trace w'
       = (trace w1 ++ [EvOpenRead (path_join results_dir k);
                       EvOpenWrite (path_join results_dir "summary.json");
                       EvWrite (path_join results_dir "summary.json") dumped;
                       EvOpenWrite (path_join results_dir "evaluate_parameters.json");
                       EvTime;
                       EvWrite (path_join results_dir "evaluate_parameters.json")
                               (dumped' now)])%list.
Proof.
  intros Heval Hkey Hfile Hlines Hinit Hagg Hdump Hmodel Hparams.
  rewrite (grade_and_report_summary E openai_config testdata_path results_dir target_url
             target_parameters num_questions testdata w w1 results k text dumped qs m0 s
             Heval Hkey Hfile Hlines Hinit Hagg Hdump).
  unfold write_parameters, summarized, open_write, clock, file_write, bind, lift, ret,
    run_parameters in *.
  cbn [fs trace]. rewrite Hmodel, Hparams. cbn [fs trace].
  rewrite set_file_same. cbn [append].
  eexists. eexists. split; [reflexivity|]. cbn [fs trace]. split; [|split; [|split]].
  - rewrite !set_file_other by apply report_paths_differ. apply set_file_same.
  - apply set_file_same.
  - intros p Hs He. rewrite !set_file_other by assumption. reflexivity.
  - rewrite <- !app_assoc. reflexivity.
Qed.

Lemma grade_and_report_success_witness :
  exists now w',
    grade_and_report report_env (PDict [("model", PStr "gpt-4")]) "qa.jsonl" "results"
      (PStr "http://target/chat") (PDict []) None [dataset_record] report_world
    = (Return true, w')
    /\ fs w' (path_join "results" "summary.json") = Some "{}"
    /\ fs w' (path_join "results" "evaluate_parameters.json")
       = Some ((fun _ : Z => "{}") now)
    /\ (forall p, p <> path_join "results" "summary.json" ->
                  p <> path_join "results" "evaluate_parameters.json" ->
                  fs w' p = fs (grading report_world [dataset_record] "results") p)
    /\ trace w'
       = (trace (grading report_world [dataset_record] "results")
          ++ [EvOpenRead (path_join "results" "eval_results.jsonl");
              EvOpenWrite (path_join "results" "summary.json");
              EvWrite (path_join "results" "summary.json") "{}";
              EvOpenWrite (path_join "results" "evaluate_parameters.json");
              EvTime;
              EvWrite (path_join "results" "evaluate_parameters.json")
                      ((fun _ : Z => "{}") now)])%list.
Proof.
  eapply (grade_and_report_success report_env (PDict [("model", PStr "gpt-4")])
            "qa.jsonl" "results" (PStr "http://target/chat") (PDict []) None
            [dataset_record] report_world
            (grading report_world [dataset_record] "results")
            (EvalResults mean_ratings [("eval_results.jsonl", PNone)])
            "eval_results.jsonl" rated_line "{}" [rated "see [doc.pdf]" (PInt 5)]
            _ _ (PStr "gpt-4") (fun _ => "{}")).
  - reflexivity.
  - reflexivity.
  - reflexivity.
  - reflexivity.
  - reflexivity.
  - vm_compute. reflexivity.
  - reflexivity.
  - reflexivity.
  - intros now. reflexivity.
Defined.

(** ** The chat approach *)

Lemma last_item_app (earlier : list pyval) (x : pyval) :
  last_item (earlier ++ [x]) = Return x.
Proof.
  induction earlier as [|y earlier IH]; [reflexivity|].
  cbn [app last_item]. rewrite IH. destruct (earlier ++ [x])%list eqn:Happ; [|reflexivity].
  destruct earlier; discriminate Happ.
Qed.

Lemma last_item_inv (l : list pyval) (x : pyval) :
  last_item l = Return x -> exists earlier, l = (earlier ++ [x])%list.
Proof.
  induction l as [|y l IH]; [discriminate|]. cbn [last_item].
  destruct l as [|z l].
  - intros [= <-]. exists []. reflexivity.
  - intros H. destruct (IH H) as [earlier ->]. exists (y :: earlier). reflexivity.
Qed.

(** X22: the retrieval settings are not used: two sets of overrides that
    agree on [prompt_template], [suggest_followup_questions] and
    [temperature], and that the filter builder accepts, give the same
    thoughts and the same completion request, whatever their
    [retrieval_mode], [top], [semantic_ranker], [semantic_captions] and
    minimum scores are. *)
Theorem run_until_final_call_ignores_retrieval
    (self : ChatApproach) (history : list pyval) (o1 o2 : list (string * pyval))
    (auth_claims f1 f2 : pyval) (should_stream : bool) :
  dict_get o1 "prompt_template" = dict_get o2 "prompt_template" ->
  dict_get o1 "suggest_followup_questions" = dict_get o2 "suggest_followup_questions" ->
  dict_get o1 "temperature" = dict_get o2 "temperature" ->
  build_filter self o1 auth_claims = Return f1 ->
  build_filter self o2 auth_claims = Return f2 ->
  run_until_final_call self history o1 auth_claims should_stream
  = run_until_final_call self history o2 auth_claims should_stream.
Proof.
  intros Hprompt Hfollow Htemp Hf1 Hf2.
  unfold run_until_final_call, dict_get_or.
  rewrite Hf1, Hf2, Hprompt, Hfollow, Htemp. reflexivity.
Qed.

Lemma run_until_final_call_ignores_retrieval_witness :
  run_until_final_call sample_approach sample_history
    [("retrieval_mode", PStr "text"); ("top", PInt 5)] PNone false
  = run_until_final_call sample_approach sample_history
      [("retrieval_mode", PStr "vectors"); ("semantic_ranker", PBool true)] PNone false.
Proof.
  apply (run_until_final_call_ignores_retrieval sample_approach sample_history
           [("retrieval_mode", PStr "text"); ("top", PInt 5)]
           [("retrieval_mode", PStr "vectors"); ("semantic_ranker", PBool true)]
           PNone PNone PNone false); reflexivity.
Defined.

(** X23: when the call returns, the request asks for one completion of at
    most 1024 tokens, streamed as asked; its messages were built for the
    content of the last message of the history, a string, with a budget of
    the token limit of the model less 1024; the one thought step describes
    exactly these messages, and names the deployment exactly when the
    request is addressed to it. *)
Theorem run_until_final_call_request
    (self : ChatApproach) (history : list pyval) (overrides : list (string * pyval))
    (auth_claims : pyval) (should_stream : bool)
    (thoughts : list thought_step) (req : completion_request) :
  run_until_final_call self history overrides auth_claims should_stream
  = Return (thoughts, req) ->
  req_max_tokens req = 1024
  /\ req_n req = 1
  /\ req_stream req = should_stream
  /\ (exists earlier d q system_message,
        history = (earlier ++ [PDict d])%list
        /\ dict_get d "content" = Some (PStr q)
        /\ get_messages_from_history self system_message (chatgpt_model self) history
             (PStr q) (chatgpt_token_limit self - 1024) = Return (req_messages req))
  /\ (exists step,
        thoughts = [step]
        /\ description step = map (str_message self) (req_messages req)
        /\ dict_get (props step) "model" = Some (PStr (chatgpt_model self))
        /\ (dict_get (props step) "deployment" = Some (req_model req)
            /\ req_model req = chatgpt_deployment self
            /\ truthy (chatgpt_deployment self) = true
            \/ dict_get (props step) "deployment" = None
               /\ req_model req = PStr (chatgpt_model self)
               /\ truthy (chatgpt_deployment self) = false)).
Proof.
  unfold run_until_final_call.
  destruct (build_filter self overrides auth_claims) as [f|]; [|discriminate].
  cbn [obind].
  destruct (last_item history) as [last|] eqn:Hlast; [|discriminate]. cbn [obind].
  destruct (getitem last "content") as [content|] eqn:Hcontent; [|discriminate].
  cbn [obind].
  destruct content as [| | | |q| |]; try discriminate. cbn [str_add obind].
  destruct (get_system_prompt self _ _) as [system_message|]; [|discriminate].
  cbn [obind].
  destruct (get_messages_from_history self system_message (chatgpt_model self) history
              (PStr q) (chatgpt_token_limit self - 1024)) as [messages|] eqn:Hmessages;
    [|discriminate].
  cbn [obind]. intros H. injection H as <- <-.
  cbn [req_max_tokens req_n req_stream req_messages req_model].
  split; [reflexivity | split; [reflexivity | split; [reflexivity | split]]].
  - destruct (last_item_inv history last Hlast) as [earlier Hhistory].
    destruct last as [| | | | | |d]; try discriminate Hcontent.
    unfold getitem in Hcontent.
    destruct (dict_get d "content") as [x|] eqn:Hd; [|discriminate Hcontent].
    injection Hcontent as ->.
    exists earlier, d, q, system_message. repeat split; assumption.
  - eexists. split; [reflexivity|]. cbn [description props].
    split; [reflexivity|].
    destruct (truthy (chatgpt_deployment self)) eqn:Hdep.
    + split; [reflexivity|]. left. repeat split.
    + split; [reflexivity|]. right. repeat split.
Qed.

Lemma run_until_final_call_request_witness :
  req_max_tokens
    (CompletionRequest (PStr "chat")
       [PDict [("role", PStr "system");
               ("content", PStr "Assistant generates Python code.")];
        PDict [("role", PStr "user");
               ("content", PStr "Plot waste emissions by country")]]
       (PFloat float_0_3) 1024 1 true) = 1024.
Proof.
  apply (run_until_final_call_request sample_approach sample_history [] PNone true
           [ThoughtStep "Prompt to generate answer" ["message"; "message"]
              [("model", PStr "gpt-35-turbo"); ("deployment", PStr "chat")]]).
  reflexivity.
Defined.

(** X24: the last message of the history decides: an empty history is an
    [IndexError], a last message without [content] a [KeyError], and a
    content that is not a string a [TypeError], raised by the building of a
    search query that is not used afterwards; in each case no prompt is
    built. *)
Theorem run_until_final_call_bad_history
    (self : ChatApproach) (overrides : list (string * pyval)) (auth_claims f : pyval)
    (should_stream : bool) :
  build_filter self overrides auth_claims = Return f ->
  run_until_final_call self [] overrides auth_claims should_stream = Raise IndexError
  /\ (forall earlier d,
        dict_get d "content" = None ->
        run_until_final_call self (earlier ++ [PDict d]) overrides auth_claims should_stream
        = Raise (KeyError "content"))
  /\ (forall earlier d v,
        dict_get d "content" = Some v ->
        (forall q, v <> PStr q) ->
        run_until_final_call self (earlier ++ [PDict d]) overrides auth_claims should_stream
        = Raise TypeError).
Proof.
  intros Hf. unfold run_until_final_call. rewrite Hf. cbn [obind].
  split; [reflexivity | split].
  - intros earlier d Hd. rewrite last_item_app. cbn [obind getitem]. rewrite Hd. reflexivity.
  - intros earlier d v Hd Hv. rewrite last_item_app. cbn [obind getitem]. rewrite Hd.
    cbn [obind]. destruct v; try reflexivity. exfalso. exact (Hv s eq_refl).
Qed.

Lemma run_until_final_call_bad_history_witness :
  run_until_final_call sample_approach
    (sample_history ++ [PDict [("role", PStr "user"); ("content", PInt 7)]]) [] PNone false
  = Raise TypeError.
Proof.
  apply (proj2 (proj2 (run_until_final_call_bad_history sample_approach [] PNone PNone
                         false eq_refl))
           sample_history [("role", PStr "user"); ("content", PInt 7)] (PInt 7)).
  - reflexivity.
  - discriminate.
Defined.
